(** * polarissync: reconciliation of the Polaris workstation table against
      Active Directory and Azure AD

    A shallow embedding of [main.go] (and the [Configuration] struct of
    [configuration.go]).  Go strings are byte strings and are modelled by
    [string]; the global slices [dbComputers] and [adComputers] are lists;
    the database, the LDAP server and the PowerShell session are external
    collaborators whose answers are collected in an environment record;
    [panic], [log.Fatal] and run-time errors abort a computation and keep the
    state reached so far. *)

From Stdlib Require Import String Ascii List ZArith NArith Bool Lia DecimalString.
Import ListNotations.
Open Scope string_scope.

(** ** The functions of Go's [strings] and [strconv] packages that the
       program calls *)

Module Strings.

(** The Unicode tables of the Go library are not part of the program.  The
    three places where the library leaves its ASCII path are kept as the
    fields of a class. *)
Class Unicode := {
  (** [strings.Map(unicode.ToUpper, s)] *)
  MapToUpper : string -> string;
  (** [strings.TrimFunc(s, unicode.IsSpace)] *)
  TrimFuncIsSpace : string -> string;
  (** [strings.TrimRightFunc(s, unicode.IsSpace)] *)
  TrimRightFuncIsSpace : string -> string
}.

Definition byteval (c : ascii) : N := N_of_ascii c.

(** [utf8.RuneSelf] *)
Definition RuneSelf : N := 128.

(** ['a' <= c && c <= 'z'] *)
Definition isLower (c : ascii) : bool :=
  ((97 <=? byteval c) && (byteval c <=? 122))%N.


(** [c -= 'a' - 'A'] for a lower-case letter *)
Definition upperByte (c : ascii) : ascii :=
  if isLower c then ascii_of_N (byteval c - 32) else c.

Fixpoint mapBytes (f : ascii -> ascii) (s : string) : string :=
  match s with
  | EmptyString => EmptyString
  | String c s' => String (f c) (mapBytes f s')
  end.

Fixpoint isASCII (s : string) : bool :=
  match s with
  | EmptyString => true
  | String c s' => (byteval c <? RuneSelf)%N && isASCII s'
  end.

Fixpoint hasLower (s : string) : bool :=
  match s with
  | EmptyString => false
  | String c s' => isLower c || hasLower s'
  end.

(** The six entries of the library's [asciiSpace] table. *)
Definition asciiSpace (c : ascii) : bool :=
  let n := byteval c in
  ((n =? 9) || (n =? 10) || (n =? 11) || (n =? 12) || (n =? 13) || (n =? 32))%N.

(** What the backwards scan of [TrimSpace] finds. *)
Inductive tail := AllSpace | CleanEnd | NonASCIIEnd.

Fixpoint scanRight (s : string) : tail * string :=
  match s with
  | EmptyString => (AllSpace, EmptyString)
  | String c s' =>
      match scanRight s' with
      | (AllSpace, _) =>
          if (RuneSelf <=? byteval c)%N then (NonASCIIEnd, String c EmptyString)
          else if asciiSpace c then (AllSpace, EmptyString)
          else (CleanEnd, String c EmptyString)
      | (k, t) => (k, String c t)
      end
  end.

Section WithUnicode.
Context {U : Unicode}.

(** [strings.ToUpper]: ASCII-only strings are folded byte by byte, and
    returned as they are when they hold no lower-case letter; any other
    string goes through the Unicode tables. *)
Definition ToUpper (s : string) : string :=
  if isASCII s then
    if hasLower s then mapBytes upperByte s else s
  else MapToUpper s.

(** [strings.TrimSpace]: the forward scan stops at the first byte that is
    not an ASCII space, the backward scan likewise; a byte at or above
    [RuneSelf] met by either scan hands the rest to the Unicode-aware
    trimming. *)
Fixpoint TrimSpace (s : string) : string :=
  match s with
  | EmptyString => EmptyString
  | String c s' =>
      if (RuneSelf <=? byteval c)%N then TrimFuncIsSpace s
      else if asciiSpace c then TrimSpace s'
      else
        match scanRight s with
        | (NonASCIIEnd, t) => TrimRightFuncIsSpace t
        | (_, t) => t
        end
  end.
End WithUnicode.

(** [strings.HasPrefix] *)
Definition HasPrefix (s pre : string) : bool := prefix pre s.

(** [strings.Split(s, sep)] for a separator of one byte, the only form in
    which the program calls it.  The result always has one element more
    than [s] has separators. *)
Fixpoint Split (s : string) (sep : ascii) : list string :=
  match s with
  | EmptyString => [EmptyString]
  | String c s' =>
      if Ascii.eqb c sep then EmptyString :: Split s' sep
      else
        match Split s' sep with
        | [] => [String c EmptyString]
        | h :: t => String c h :: t
        end
  end.

(** [strconv.Itoa] *)
Definition Itoa (n : Z) : string := NilZero.string_of_int (Z.to_int n).

(** A library for strings that hold ASCII only: bytes at or above
    [RuneSelf] are left alone.  It serves to run the program on ASCII
    inputs, where the Unicode tables are never consulted. *)
Definition asciiOnly : Unicode :=
  {| MapToUpper := mapBytes upperByte;
     TrimFuncIsSpace := fun s => s;
     TrimRightFuncIsSpace := fun s => s |}.

End Strings.
Import Strings.

(** ** Configuration ([configuration.go]) *)

Record ActiveDirectoryConfig := {
  ad_Enabled : bool;
  ad_Host : string;
  ad_Domain : string;
  ad_Username : string;
  ad_Password : string;
  ad_Dn : string
}.

Record AzureConfig := {
  az_Enabled : bool;
  az_Domain : string
}.

Record LoggingConfig := {
  log_Enabled : bool;
  log_Location : string
}.

Record DatabaseConfig := {
  db_Host : string;
  db_Port : Z;
  db_Name : string;
  db_Trusted : bool;
  db_Domain : string;
  db_Username : string;
  db_Password : string;
  ExemptComputers : list string
}.

Record Configuration := {
  ActiveDirectory : ActiveDirectoryConfig;
  Azure : AzureConfig;
  Logging : LoggingConfig;
  Database : DatabaseConfig
}.

(** The zero value of the struct, the content of [config] before
    [viper.Unmarshal] fills it. *)
Definition zeroConfiguration : Configuration :=
  {| ActiveDirectory := {| ad_Enabled := false; ad_Host := ""; ad_Domain := "";
                           ad_Username := ""; ad_Password := ""; ad_Dn := "" |};
     Azure := {| az_Enabled := false; az_Domain := "" |};
     Logging := {| log_Enabled := false; log_Location := "" |};
     Database := {| db_Host := ""; db_Port := 0; db_Name := ""; db_Trusted := false;
                    db_Domain := ""; db_Username := ""; db_Password := "";
                    ExemptComputers := [] |} |}.

(** ** The external collaborators *)

(** An error value is represented by its message. *)
Definition error := string.

(** A row of the result set: [rows.Scan] stores the name or fails. *)
Inductive Scan :=
| ScanValue (ComputerName : string)
| ScanError (err : error).

(** The answer to [conn.Query]: an error, or the rows in order together
    with what [rows.Err] reports after the last of them. *)
Inductive QueryResult :=
| QueryError (err : error)
| QueryRows (rows : list Scan) (rowsErr : option error).

(** The answer to [conn.Exec]: an error, or a [sql.Result], of which the
    number of affected rows is kept. *)
Inductive ExecResult :=
| ExecError (err : error)
| ExecDone (rowsAffected : Z).

(** [ldap.EntryAttribute] and [ldap.Entry] *)
Record EntryAttribute := {
  attr_Name : string;
  Values : list string
}.

Record Entry := {
  DN : string;
  Attributes : list EntryAttribute
}.

(** What happens to the PowerShell process once its input is written. *)
Record Session := {
  start_err : option error;
  out : string;
  errtxt : string;
  wait_err : option error
}.

Record Env := {
  viper_ReadInConfig : option error;
  viper_Unmarshal : error + Configuration;
  (** date of [time.Now()]: year, month, day *)
  time_Now : Z * Z * Z;
  (** [os.OpenFile] on the log file, by directory and file name *)
  os_OpenFile : string -> string -> option error;
  (** [sql.Open], by driver name and connection string *)
  sql_Open : string -> string -> option error;
  (** [conn.Query], by connection string and statement *)
  sql_Query : string -> string -> QueryResult;
  (** [conn.Exec], by connection string, statement and argument; the answer
      may depend on the deletes already run, whose arguments come first *)
  sql_Exec : list string -> string -> string -> string -> ExecResult;
  ldap_DialURL : string -> option error;
  (** [l.Bind], by user name and password *)
  ldap_Bind : string -> string -> option error;
  (** [l.Search], by base DN, filter and requested attributes *)
  ldap_Search : string -> string -> list string -> error + list Entry;
  cmd_StdinPipe : option error;
  cmd_StderrPipe : option error;
  cmd_StdoutPipe : option error;
  (** the PowerShell session, by the lines written to its input *)
  powershell : list string -> Session
}.

(** ** Program state and control *)

Inductive LogLine :=
| INFO (msg : string)
| ERROR (msg : string).

(** The package-level variables, followed by what the run has done to the
    table: the arguments of the calls of [removeComputer], and the arguments
    of the delete statements that were run. *)
Record State := {
  config : Configuration;
  dbComputers : list string;
  adComputers : list string;
  (** lines appended to [logFile] *)
  logFile : list LogLine;
  (** [errorLogger != nil] *)
  errorLogger : bool;
  (** [infoLogger != nil] *)
  infoLogger : bool;
  removeCalls : list string;
  deletes : list string
}.

Definition initial : State :=
  {| config := zeroConfiguration; dbComputers := []; adComputers := [];
     logFile := []; errorLogger := false; infoLogger := false;
     removeCalls := []; deletes := [] |}.

Definition set_config (c : Configuration) (st : State) : State :=
  {| config := c; dbComputers := dbComputers st; adComputers := adComputers st;
     logFile := logFile st; errorLogger := errorLogger st;
     infoLogger := infoLogger st; removeCalls := removeCalls st;
     deletes := deletes st |}.

Definition set_dbComputers (l : list string) (st : State) : State :=
  {| config := config st; dbComputers := l; adComputers := adComputers st;
     logFile := logFile st; errorLogger := errorLogger st;
     infoLogger := infoLogger st; removeCalls := removeCalls st;
     deletes := deletes st |}.

Definition set_adComputers (l : list string) (st : State) : State :=
  {| config := config st; dbComputers := dbComputers st; adComputers := l;
     logFile := logFile st; errorLogger := errorLogger st;
     infoLogger := infoLogger st; removeCalls := removeCalls st;
     deletes := deletes st |}.

Definition set_logFile (l : list LogLine) (st : State) : State :=
  {| config := config st; dbComputers := dbComputers st;
     adComputers := adComputers st; logFile := l;
     errorLogger := errorLogger st; infoLogger := infoLogger st;
     removeCalls := removeCalls st; deletes := deletes st |}.

Definition set_loggers (st : State) : State :=
  {| config := config st; dbComputers := dbComputers st;
     adComputers := adComputers st; logFile := logFile st;
     errorLogger := true; infoLogger := true;
     removeCalls := removeCalls st; deletes := deletes st |}.

Definition set_removeCalls (l : list string) (st : State) : State :=
  {| config := config st; dbComputers := dbComputers st;
     adComputers := adComputers st; logFile := logFile st;
     errorLogger := errorLogger st; infoLogger := infoLogger st;
     removeCalls := l; deletes := deletes st |}.

Definition set_deletes (l : list string) (st : State) : State :=
  {| config := config st; dbComputers := dbComputers st;
     adComputers := adComputers st; logFile := logFile st;
     errorLogger := errorLogger st; infoLogger := infoLogger st;
     removeCalls := removeCalls st; deletes := l |}.

(** How a computation can stop early: [panic(v)], a run-time error raised
    by the language (an index out of range), or [os.Exit]. *)
Inductive Abort :=
| Panic (v : string)
| RuntimeError (msg : string)
| Exit (code : Z).

Inductive Outcome (A : Type) :=
| Returned (a : A)
| Aborted (e : Abort).
Arguments Returned {A} a.
Arguments Aborted {A} e.

(** A computation reads and writes the state; when it aborts, the state
    reached at that point is kept. *)
Definition Go (A : Type) : Type := State -> Outcome A * State.

Definition ret {A} (a : A) : Go A := fun st => (Returned a, st).

Definition bind {A B} (c : Go A) (k : A -> Go B) : Go B :=
  fun st =>
    match c st with
    | (Returned a, st') => k a st'
    | (Aborted e, st') => (Aborted e, st')
    end.

Definition abort {A} (e : Abort) : Go A := fun st => (Aborted e, st).
Definition get : Go State := fun st => (Returned st, st).
Definition modify (f : State -> State) : Go unit := fun st => (Returned tt, f st).

Declare Scope go_scope.
Delimit Scope go_scope with go.
Notation "x <- c ;; k" := (bind c (fun x => k))
  (at level 61, c at next level, right associativity) : go_scope.
Notation "c ;; k" := (bind c (fun _ => k))
  (at level 61, right associativity) : go_scope.
Open Scope go_scope.

(** Go's [int] on the 64-bit platforms the program is built for. *)
Definition wrap_int (z : Z) : Z := ((z + 2 ^ 63) mod 2 ^ 64 - 2 ^ 63)%Z.

(** [count++] *)
Definition incr (count : Z) : Z := wrap_int (count + 1).

(** [len(s)] of a slice *)
Definition len {A} (l : list A) : Z := Z.of_nat (length l).

(** ** The program ([main.go]) *)

Definition CR : ascii := "013"%char.
Definition LF : string := String "010"%char EmptyString.
Definition dquote : string := String (ascii_of_nat 34) EmptyString.

Section Program.
Context {U : Unicode}.
Variable env : Env.

Definition writeInfo (msg : string) : Go unit :=
  fun st =>
    if infoLogger st
    then (Returned tt, set_logFile (logFile st ++ [INFO msg]) st)
    else (Returned tt, st).

(** [errorLogger.Panic] prints and panics; without a logger the function
    panics directly.  It never returns. *)
Definition writeError {A} (err : error) : Go A :=
  fun st =>
    if errorLogger st
    then (Aborted (Panic err), set_logFile (logFile st ++ [ERROR err]) st)
    else (Aborted (Panic err), st).

(** The body of [buildConnString], as a function of [config]. *)
Definition connString (c : Configuration) : string :=
  let d := Database c in
  if db_Trusted d then
    "server=" ++ db_Host d ++ ";port=" ++ Itoa (db_Port d)
      ++ ";database=" ++ db_Name d ++ ";trusted_connection=yes"
  else
    let username := db_Domain d ++ "\" ++ db_Username d in
    "server=" ++ db_Host d ++ ";user id=" ++ username
      ++ ";password=" ++ db_Password d ++ ";port=" ++ Itoa (db_Port d)
      ++ ";database=" ++ db_Name d.

Definition buildConnString : Go string :=
  st <- get ;;
  ret (connString (config st)).

Definition selectWorkstations : string :=
  "select ComputerName from Polaris.Workstations where ComputerName is not null".

Definition deleteWorkstation : string :=
  "delete from Polaris.Workstations where ComputerName = ?".

(** The loop [for rows.Next() { ... }] of [listDBComputers]. *)
Fixpoint scanRows (rows : list Scan) : Go unit :=
  match rows with
  | [] => ret tt
  | ScanError err :: _ =>
      writeError ("error reading record from database: " ++ err)
  | ScanValue ComputerName :: rows' =>
      modify (fun st =>
        set_dbComputers (dbComputers st ++ [ToUpper ComputerName]) st) ;;
      scanRows rows'
  end.

Definition listDBComputers : Go unit :=
  dsn <- buildConnString ;;
  match sql_Open env "mssql" dsn with
  | Some err => writeError ("database connection failed: " ++ err)
  | None =>
      match sql_Query env dsn selectWorkstations with
      | QueryError err => writeError ("failed to load workstations: " ++ err)
      | QueryRows rows rowsErr =>
          scanRows rows ;;
          match rowsErr with
          | Some err => writeError ("error reading from database: " ++ err)
          | None =>
              st <- get ;;
              writeInfo (Itoa (len (dbComputers st)) ++ " records retrieved")
          end
      end
  end.

Definition indexOutOfRange : Abort :=
  RuntimeError "index out of range [0] with length 0".

(** The loop [for _, x := range result.Entries] of [listADComputers];
    [x.Attributes[0]] and [.Values[0]] are run-time errors on an empty
    slice. *)
Fixpoint rangeEntries (entries : list Entry) : Go unit :=
  match entries with
  | [] => ret tt
  | x :: entries' =>
      match Attributes x with
      | [] => abort indexOutOfRange
      | a :: _ =>
          match Values a with
          | [] => abort indexOutOfRange
          | v :: _ =>
              modify (fun st =>
                set_adComputers (adComputers st ++ [ToUpper v]) st) ;;
              rangeEntries entries'
          end
      end
  end.

Definition listADComputers : Go unit :=
  st <- get ;;
  let ad := ActiveDirectory (config st) in
  match ldap_DialURL env ("ldap://" ++ ad_Host ad ++ ":389") with
  | Some err => writeError ("unable to connect to AD server: " ++ err)
  | None =>
      let username := ad_Domain ad ++ "\" ++ ad_Username ad in
      match ldap_Bind env username (ad_Password ad) with
      | Some err => writeError ("unable to bind to ldap: " ++ err)
      | None =>
          match ldap_Search env (ad_Dn ad) "(&(objectClass=computer))" ["cn"] with
          | inl err => writeError ("ldap search error: " ++ err)
          | inr entries =>
              (if (0 <? len entries)%Z
               then rangeEntries entries
               else writeError "no results returned from ldap search") ;;
              st' <- get ;;
              writeInfo (Itoa (len (adComputers st')) ++ " records retrieved from AD")
          end
      end
  end.

(** The lines the goroutine writes to the standard input of PowerShell. *)
Definition script (c : Configuration) : list string :=
  [ "$userName = '" ++ ad_Username (ActiveDirectory c) ++ "@"
      ++ az_Domain (Azure c) ++ "'";
    "$passText = '" ++ ad_Password (ActiveDirectory c) ++ "'";
    "$secpasswd = ConvertTo-SecureString -String $passText -AsPlainText -Force";
    "$creds = New-Object System.Management.Automation.PSCredential ($userName, $secpasswd)";
    "Connect-AzureAD -Credential $creds";
    "Get-AzureADDevice -All $true | Where {($_.DeviceTrustType -eq "
      ++ dquote ++ "AzureAD" ++ dquote ++ ") -and ($_.ProfileType -eq "
      ++ dquote ++ "RegisteredDevice" ++ dquote
      ++ ")} | Format-Table -Property DisplayName" ].

(** The loop [for _, c := range psData] with its two local variables:
    it returns the final [count]. *)
Fixpoint rangePsData (psData : list string) (skip : bool) (count : Z) : Go Z :=
  match psData with
  | [] => ret count
  | c :: psData' =>
      if negb skip then
        let trimmed := TrimSpace c in
        if String.eqb trimmed "" then ret count
        else
          modify (fun st =>
            set_adComputers (adComputers st ++ [ToUpper trimmed]) st) ;;
          rangePsData psData' skip (incr count)
      else
        if HasPrefix (TrimSpace c) "-----------"
        then rangePsData psData' false count
        else rangePsData psData' skip count
  end.

(** [log.Fatal]: the message goes to the standard logger and the process
    exits with status 1. *)
Definition logFatal {A} (err : error) : Go A := abort (Exit 1).

Definition listAzureComputers : Go unit :=
  match cmd_StdinPipe env with
  | Some err => logFatal err
  | None =>
  match cmd_StderrPipe env with
  | Some err => logFatal err
  | None =>
  match cmd_StdoutPipe env with
  | Some err => logFatal err
  | None =>
      st <- get ;;
      let session := powershell env (script (config st)) in
      match start_err session with
      | Some err => writeError ("failed to connect to powershell: " ++ err)
      | None =>
          match wait_err session with
          | Some err =>
              writeError ("failed to retrieve records from Azure: " ++ err
                          ++ LF ++ errtxt session)
          | None =>
              let psData := Split (out session) CR in
              count <- rangePsData psData true 0 ;;
              writeInfo (Itoa count ++ " records retrieved from Azure")
          end
      end
  end end end.

Definition removeComputer (name : string) : Go bool :=
  modify (fun st => set_removeCalls (removeCalls st ++ [name]) st) ;;
  dsn <- buildConnString ;;
  match sql_Open env "mssql" dsn with
  | Some err => writeError ("database connection failed: " ++ err)
  | None =>
      st <- get ;;
      let result := sql_Exec env (deletes st) dsn deleteWorkstation name in
      modify (fun st => set_deletes (deletes st ++ [name]) st) ;;
      match result with
      | ExecError err =>
          writeInfo ("Failed to remove workstion " ++ name ++ ": " ++ err) ;;
          ret false
      | ExecDone _ =>
          writeInfo (name ++ " removed from database") ;;
          ret true
      end
  end.

(** The first inner loop: [found] after the search of [adComputers]. *)
Fixpoint inDirectory (ad : list string) (x : string) : bool :=
  match ad with
  | [] => false
  | y :: ad' => if String.eqb x y then true else inDirectory ad' x
  end.

(** The second inner loop: [found] after the search of
    [config.Database.ExemptComputers], which logs the match. *)
Fixpoint inExempt (exempt : list string) (x : string) : Go bool :=
  match exempt with
  | [] => ret false
  | y :: exempt' =>
      if String.eqb x y
      then writeInfo ("Skipping " ++ x ++ ", exempt from removal") ;; ret true
      else inExempt exempt' x
  end.

(** The outer loop [for x := range dbComputers]; it returns [count]. *)
Fixpoint rangeDbComputers (db : list string) (count : Z) : Go Z :=
  match db with
  | [] => ret count
  | x :: db' =>
      st <- get ;;
      let found := inDirectory (adComputers st) x in
      found <- (if negb found
                then inExempt (ExemptComputers (Database (config st))) x
                else ret found) ;;
      count <- (if negb found
                then
                  removed <- removeComputer x ;;
                  if removed then ret (incr count) else ret count
                else ret count) ;;
      rangeDbComputers db' count
  end.

(** [findComputersToRemoveFromDB]; the model returns [count], which the
    function writes to the log. *)
Definition findComputersToRemoveFromDB : Go Z :=
  st <- get ;;
  count <- rangeDbComputers (dbComputers st) 0 ;;
  writeInfo (Itoa count ++ " computers removed from database") ;;
  ret count.

(** The block [if config.Logging.Enabled { ... }] of [main]: the log file
    is named after the date, and the two loggers are created on it. *)
Definition openLog : Go unit :=
  st <- get ;;
  if log_Enabled (Logging (config st)) then
    let '(year, month, day) := time_Now env in
    let logfilename :=
      "polarissync" ++ Itoa year ++ Itoa month ++ Itoa day ++ ".log" in
    match os_OpenFile env (log_Location (Logging (config st))) logfilename with
    | Some err => abort (Panic ("failed to open log file: " ++ err))
    | None => modify set_loggers
    end
  else ret tt.

Definition main : Go Z :=
  match viper_ReadInConfig env with
  | Some err => abort (Panic ("unable to read config file: " ++ err))
  | None =>
  match viper_Unmarshal env with
  | inl err => abort (Panic ("config file is corrupt: " ++ err))
  | inr c =>
      modify (set_config c) ;;
      openLog ;;
      writeInfo "Loading the list of computers from the database" ;;
      listDBComputers ;;
      st <- get ;;
      (if ad_Enabled (ActiveDirectory (config st)) then
         writeInfo "Loading the list of computers from Active Directory" ;;
         listADComputers
       else ret tt) ;;
      st <- get ;;
      (if az_Enabled (Azure (config st)) then
         writeInfo "Loading the list of computers from Azure" ;;
         listAzureComputers
       else ret tt) ;;
      writeInfo "Searching for computers to remove from the database" ;;
      findComputersToRemoveFromDB
  end end.

End Program.

(** ** Notions used to state the properties *)

(** [removeComputer] found no error in the answer of [conn.Exec]. *)
Definition isDone (r : ExecResult) : bool :=
  match r with
  | ExecDone _ => true
  | ExecError _ => false
  end.

(** Membership in the exemption list, by string equality. *)
Definition exempted (exempt : list string) (x : string) : bool :=
  existsb (String.eqb x) exempt.

(** An inventory entry that is neither in the directory list nor in the
    exemption list. *)
Definition candidate (ad exempt : list string) (x : string) : bool :=
  negb (inDirectory ad x) && negb (exempted exempt x).

(** The number of deletes that the database answers without an error, when
    the names of [cands] are deleted in order after those of [hist]. *)
Fixpoint answered (env : Env) (dsn : string) (hist cands : list string) : nat :=
  match cands with
  | [] => 0
  | x :: cands' =>
      (if isDone (sql_Exec env hist dsn deleteWorkstation x) then 1 else 0)
      + answered env dsn (hist ++ [x]) cands'
  end.

(** The package-level variables other than [logFile] agree in two states. *)
Definition sameGlobals (st st' : State) : Prop :=
  config st' = config st /\ dbComputers st' = dbComputers st
  /\ adComputers st' = adComputers st
  /\ infoLogger st' = infoLogger st /\ errorLogger st' = errorLogger st.

(** The removal candidates of an inventory list in a state, in inventory
    order and with repetitions. *)
Definition candidates (st : State) (db : list string) : list string :=
  filter (candidate (adComputers st) (ExemptComputers (Database (config st)))) db.

(** ** Sample runs *)

Definition sampleConfig (ad az : bool) (exempt : list string) : Configuration :=
  {| ActiveDirectory := {| ad_Enabled := ad; ad_Host := "dc1"; ad_Domain := "LIB";
                           ad_Username := "sync"; ad_Password := "secret";
                           ad_Dn := "dc=lib,dc=local" |};
     Azure := {| az_Enabled := az; az_Domain := "lib.example.org" |};
     Logging := {| log_Enabled := true; log_Location := "." |};
     Database := {| db_Host := "127.0.0.1"; db_Port := 1433; db_Name := "Polaris";
                    db_Trusted := true; db_Domain := ""; db_Username := "";
                    db_Password := ""; ExemptComputers := exempt |} |}.

(** A directory entry as the search returns it: one attribute, [cn], with
    one value. *)
Definition computer (cn : string) : Entry :=
  {| DN := "CN=" ++ cn ++ ",dc=lib,dc=local";
     Attributes := [ {| attr_Name := "cn"; Values := [cn] |} ] |}.

(** An environment in which every connection succeeds: the workstation
    table holds [rows], the directory search returns [entries], PowerShell
    prints [report], and [exec] answers the deletes. *)
Definition sampleEnv (c : Configuration) (rows : list string)
    (entries : list Entry) (report : string)
    (exec : list string -> string -> ExecResult) : Env :=
  {| viper_ReadInConfig := None;
     viper_Unmarshal := inr c;
     time_Now := (2024, 3, 9)%Z;
     os_OpenFile := fun _ _ => None;
     sql_Open := fun _ _ => None;
     sql_Query := fun _ _ => QueryRows (map ScanValue rows) None;
     sql_Exec := fun hist _ _ name => exec hist name;
     ldap_DialURL := fun _ => None;
     ldap_Bind := fun _ _ => None;
     ldap_Search := fun _ _ _ => inr entries;
     cmd_StdinPipe := None;
     cmd_StderrPipe := None;
     cmd_StdoutPipe := None;
     powershell := fun _ =>
       {| start_err := None; out := report; errtxt := ""; wait_err := None |} |}.

(** The state after the three lists are loaded, with logging on. *)
Definition loaded (c : Configuration) (db ad : list string) : State :=
  {| config := c; dbComputers := db; adComputers := ad; logFile := [];
     errorLogger := true; infoLogger := true; removeCalls := []; deletes := [] |}.

(** A table in which every delete finds its row. *)
Definition deleteFinds : list string -> string -> ExecResult :=
  fun _ _ => ExecDone 1.

(** A table in which no delete finds a row. *)
Definition deleteFindsNothing : list string -> string -> ExecResult :=
  fun _ _ => ExecDone 0.

(** A table on which the delete of [bad] fails. *)
Definition deleteFailsOn (bad : string) : list string -> string -> ExecResult :=
  fun _ name => if String.eqb name bad then ExecError "deadlock victim" else ExecDone 1.

(** ** Notions used to state the properties of the readers *)

(** What a step that only reads a source leaves alone: the configuration,
    the loggers and the record of removals. *)
Definition keeps (st st' : State) : Prop :=
  config st' = config st
  /\ infoLogger st' = infoLogger st /\ errorLogger st' = errorLogger st
  /\ removeCalls st' = removeCalls st /\ deletes st' = deletes st.

(** [x.Attributes[0].Values[0]], when both indices are in range. *)
Definition firstValue (x : Entry) : option string :=
  match Attributes x with
  | [] => None
  | a :: _ =>
      match Values a with
      | [] => None
      | v :: _ => Some v
      end
  end.

(** An entry on which [x.Attributes[0].Values[0]] is out of range. *)
Definition lacksValue (x : Entry) : Prop :=
  Attributes x = []
  \/ exists a rest, Attributes x = a :: rest /\ Values a = [].

(** The first values of the entries up to the first entry that has none,
    and whether every entry has one. *)
Fixpoint firstValues (entries : list Entry) : list string * bool :=
  match entries with
  | [] => ([], true)
  | x :: entries' =>
      match firstValue x with
      | None => ([], false)
      | Some v => let '(vs, ok) := firstValues entries' in (v :: vs, ok)
      end
  end.

(** The segments of the PowerShell output that the parsing loop keeps, as
    they stand in the output: those after the first segment that starts,
    once trimmed, with eleven dashes, up to the first one that is empty once
    trimmed. *)
Fixpoint reportLines {U : Unicode} (psData : list string) (skip : bool)
    : list string :=
  match psData with
  | [] => []
  | c :: psData' =>
      if negb skip then
        if String.eqb (TrimSpace c) "" then []
        else c :: reportLines psData' skip
      else
        if HasPrefix (TrimSpace c) "-----------"
        then reportLines psData' false
        else reportLines psData' skip
  end.

(** The segments of [l], with the byte [sep] between them. *)
Fixpoint join (sep : ascii) (l : list string) : string :=
  match l with
  | [] => EmptyString
  | [s] => s
  | s :: l' => s ++ String sep (join sep l')
  end.

(** The byte [sep] does not occur in [s]. *)
Fixpoint noByte (sep : ascii) (s : string) : bool :=
  match s with
  | EmptyString => true
  | String c s' => negb (Ascii.eqb c sep) && noByte sep s'
  end.

(** Every byte of [s] is an ASCII space. *)
Fixpoint allSpace (s : string) : bool :=
  match s with
  | EmptyString => true
  | String c s' => asciiSpace c && allSpace s'
  end.



(** The report of the cloud scenario of the specification, with line feeds
    only, and the same report with the line ends PowerShell writes. *)
Definition reportLF : string :=
  "Header" ++ LF ++ "-----------" ++ LF ++ "DEVICE1" ++ LF ++ "DEVICE2"
    ++ LF ++ LF ++ "Trailing junk".

Definition CRLF : string := String CR LF.

Definition reportCRLF : string :=
  "Header" ++ CRLF ++ "-----------" ++ CRLF ++ "DEVICE1" ++ CRLF ++ "DEVICE2"
    ++ CRLF ++ CRLF ++ "Trailing junk".

(** The three answers of the directory server to the calls of
    [listADComputers] in a state. *)
Definition dialOf (env : Env) (st : State) : option error :=
  ldap_DialURL env ("ldap://" ++ ad_Host (ActiveDirectory (config st)) ++ ":389").

Definition bindOf (env : Env) (st : State) : option error :=
  ldap_Bind env
    (ad_Domain (ActiveDirectory (config st)) ++ "\"
       ++ ad_Username (ActiveDirectory (config st)))
    (ad_Password (ActiveDirectory (config st))).

Definition searchOf (env : Env) (st : State) : error + list Entry :=
  ldap_Search env (ad_Dn (ActiveDirectory (config st)))
    "(&(objectClass=computer))" ["cn"].

(** The PowerShell session that [listAzureComputers] runs in a state. *)
Definition sessionOf (env : Env) (st : State) : Session :=
  powershell env (script (config st)).

(** The three pipes of the command could be created. *)
Definition pipesOpen (env : Env) : Prop :=
  cmd_StdinPipe env = None /\ cmd_StderrPipe env = None
  /\ cmd_StdoutPipe env = None.

(** The name that the cloud reader stores for a segment of the report. *)
Definition deviceName {U : Unicode} (c : string) : string :=
  ToUpper (TrimSpace c).

(** A directory entry without attributes. *)
Definition bareEntry (dn : string) : Entry := {| DN := dn; Attributes := [] |}.

(** A report with one device, written with spaces around its name. *)
Definition reportPadded : string :=
  "DisplayName" ++ CRLF ++ "-----------" ++ CRLF ++ "  dev1  " ++ CRLF ++ CRLF.

(** A report without any device: the header and the line of dashes only. *)
Definition reportEmpty : string :=
  "DisplayName" ++ CRLF ++ "-----------" ++ CRLF ++ CRLF.

(** The directory list that a run without failure builds: the upper-cased
    common names when the primary directory is enabled, followed by the
    device names of the report when the cloud directory is enabled. *)
Definition directoryList {U : Unicode} (env : Env) (c : Configuration)
    (names : list string) : list string :=
  ((if ad_Enabled (ActiveDirectory c) then map ToUpper names else [])
   ++ (if az_Enabled (Azure c)
       then map deviceName
              (reportLines (Split (out (powershell env (script c))) CR) true)
       else []))%list.

(** ** Notions used to state the properties of a whole run *)

(** What the primary directory gives to the directory list in a run with
    configuration [c]: nothing when it is disabled, else the upper-cased
    first values of the entries that the search returns. *)
Definition primaryList {U : Unicode} (env : Env) (c : Configuration) : list string :=
  if ad_Enabled (ActiveDirectory c) then
    match ldap_Search env (ad_Dn (ActiveDirectory c))
            "(&(objectClass=computer))" ["cn"] with
    | inr entries => map ToUpper (fst (firstValues entries))
    | inl _ => []
    end
  else [].

(** What the cloud directory gives to the directory list: nothing when it is
    disabled, else the device names of the report. *)
Definition cloudList {U : Unicode} (env : Env) (c : Configuration) : list string :=
  if az_Enabled (Azure c)
  then map deviceName
         (reportLines (Split (out (powershell env (script c))) CR) true)
  else [].

(** Neither logger is set. *)
Definition silent (st : State) : Prop :=
  infoLogger st = false /\ errorLogger st = false.

(** The line that the search of the exemption list writes for [x]. *)
Definition skipLine (x : string) : LogLine :=
  INFO ("Skipping " ++ x ++ ", exempt from removal").

(** The inventory entries that the directory list does not hold, the ones
    for which the exemption list is searched. *)
Definition absent (ad db : list string) : list string :=
  filter (fun x => negb (inDirectory ad x)) db.

(** The second state has the log of the first with lines added at its end,
    none when no logger is set, and the same loggers. *)
Definition appendsLog (st st' : State) : Prop :=
  (exists lines, logFile st' = (logFile st ++ lines)%list)
  /\ (silent st -> logFile st' = logFile st)
  /\ infoLogger st' = infoLogger st /\ errorLogger st' = errorLogger st.

(** The state after a logger that is set or not has written a line. *)
Definition logged (line : LogLine) (set : bool) (st : State) : State :=
  set_logFile (logFile st ++ (if set then [line] else [])) st.

(** The result of [writeError] with message [msg] in a state. *)
Definition panicked {A} (msg : string) (st : State) : Outcome A * State :=
  (Aborted (Panic msg), logged (ERROR msg) (errorLogger st) st).

(** The first byte of [s] is an ASCII space. *)
Definition startsWithSpace (s : string) : bool :=
  match s with
  | EmptyString => false
  | String c _ => asciiSpace c
  end.

(** The last byte of [s] is an ASCII space. *)
Fixpoint endsWithSpace (s : string) : bool :=
  match s with
  | EmptyString => false
  | String c EmptyString => asciiSpace c
  | String _ s' => endsWithSpace s'
  end.

(** A name as the cloud reader should store it: not empty, of ASCII bytes,
    without a lower-case letter and without a space at either end. *)
Definition cleanName (n : string) : Prop :=
  n <> EmptyString /\ isASCII n = true /\ hasLower n = false
  /\ startsWithSpace n = false /\ endsWithSpace n = false.

(** The configuration with another exemption list. *)
Definition withExempt (exempt : list string) (c : Configuration) : Configuration :=
  {| ActiveDirectory := ActiveDirectory c;
     Azure := Azure c;
     Logging := Logging c;
     Database :=
       {| db_Host := db_Host (Database c); db_Port := db_Port (Database c);
          db_Name := db_Name (Database c); db_Trusted := db_Trusted (Database c);
          db_Domain := db_Domain (Database c);
          db_Username := db_Username (Database c);
          db_Password := db_Password (Database c);
          ExemptComputers := exempt |} |}.

(** The exemption entries without a lower-case ASCII letter. *)
Definition upperEntries (exempt : list string) : list string :=
  filter (fun e => negb (hasLower e)) exempt.

(** The state after the three lists are loaded, with no logger set. *)
Definition loadedSilent (c : Configuration) (db ad : list string) : State :=
  {| config := c; dbComputers := db; adComputers := ad; logFile := [];
     errorLogger := false; infoLogger := false; removeCalls := []; deletes := [] |}.

(** The name that [main] gives to the log file of a date. *)
Definition logfilename (year month day : Z) : string :=
  "polarissync" ++ Itoa year ++ Itoa month ++ Itoa day ++ ".log".

(** * Properties *)

(** ** The library functions and the program on small inputs *)

Example ToUpper_mixed : forall U : Unicode, ToUpper "pc-Lab 01" = "PC-LAB 01".
Proof. reflexivity. Qed.

Example TrimSpace_line : forall U : Unicode,
  TrimSpace (LF ++ " Dev1  " ++ String CR EmptyString) = "Dev1".
Proof. reflexivity. Qed.

Example TrimSpace_blank : forall U : Unicode, TrimSpace (LF ++ "  ") = "".
Proof. reflexivity. Qed.

Example Split_trailing : Split ("a" ++ CRLF ++ "b" ++ String CR EmptyString) CR
                         = ["a"; LF ++ "b"; ""].
Proof. reflexivity. Qed.

Example Split_empty : Split "" CR = [""].
Proof. reflexivity. Qed.

Example connString_trusted :
  connString (sampleConfig true false [])
  = "server=127.0.0.1;port=1433;database=Polaris;trusted_connection=yes".
Proof. reflexivity. Qed.

(** The inventory ALPHA, BETA, GAMMA against the directory ALPHA with GAMMA
    exempt: BETA is removed, and GAMMA is reported as exempt. *)
Example exempt_entry_is_skipped :
  let c := sampleConfig true false ["GAMMA"] in
  let env := sampleEnv c [] [] "" deleteFinds in
  findComputersToRemoveFromDB env (loaded c ["ALPHA"; "BETA"; "GAMMA"] ["ALPHA"])
  = (Returned 1%Z,
     {| config := c; dbComputers := ["ALPHA"; "BETA"; "GAMMA"];
        adComputers := ["ALPHA"];
        logFile := [INFO "BETA removed from database";
                    INFO "Skipping GAMMA, exempt from removal";
                    INFO "1 computers removed from database"];
        errorLogger := true; infoLogger := true;
        removeCalls := ["BETA"]; deletes := ["BETA"] |}).
Proof. reflexivity. Qed.

(** A whole run: three rows, two of them in Active Directory. *)
Example run_removes_the_missing_machine : forall U : Unicode,
  let c := sampleConfig true false [] in
  let env := sampleEnv c ["alpha"; "beta"; "gamma"]
               [computer "Alpha"; computer "BETA"] "" deleteFinds in
  fst (main env initial) = Returned 1%Z
  /\ removeCalls (snd (main env initial)) = ["GAMMA"]
  /\ logFile (snd (main env initial))
     = [INFO "Loading the list of computers from the database";
        INFO "3 records retrieved";
        INFO "Loading the list of computers from Active Directory";
        INFO "2 records retrieved from AD";
        INFO "Searching for computers to remove from the database";
        INFO "GAMMA removed from database";
        INFO "1 computers removed from database"].
Proof. repeat split. Qed.

(** ** The state that the operations leave alone *)

Lemma set_logFile_same st : set_logFile (logFile st) st = st.
Proof. destruct st; reflexivity. Qed.

Lemma writeInfo_eq msg st :
  writeInfo msg st
  = (Returned tt,
     set_logFile (logFile st ++ (if infoLogger st then [INFO msg] else [])) st).
Proof.
  unfold writeInfo. destruct (infoLogger st); [reflexivity|].
  now rewrite app_nil_r, set_logFile_same.
Qed.

Lemma writeError_eq {A} err st :
  @writeError A err st
  = (Aborted (Panic err),
     set_logFile (logFile st ++ (if errorLogger st then [ERROR err] else [])) st).
Proof.
  unfold writeError. destruct (errorLogger st); [reflexivity|].
  now rewrite app_nil_r, set_logFile_same.
Qed.

Lemma inDirectory_In ad x : inDirectory ad x = true <-> In x ad.
Proof.
  induction ad as [|y ad IH]; simpl.
  - split; [discriminate | tauto].
  - destruct (String.eqb_spec x y) as [->|Hne].
    + tauto.
    + rewrite IH. split; [tauto | intros [H|H]; congruence].
Qed.

Lemma exempted_In exempt x : exempted exempt x = true <-> In x exempt.
Proof.
  unfold exempted. rewrite existsb_exists. split.
  - intros (y & Hy & E). apply String.eqb_eq in E. now subst.
  - intros H. exists x. split; [assumption | apply String.eqb_refl].
Qed.

Lemma candidate_spec ad exempt x :
  candidate ad exempt x = true <-> ~ In x ad /\ ~ In x exempt.
Proof.
  unfold candidate. rewrite andb_true_iff, !negb_true_iff.
  rewrite <- inDirectory_In, <- exempted_In.
  destruct (inDirectory ad x), (exempted exempt x); intuition congruence.
Qed.

Lemma candidates_spec ad exempt db x :
  In x (filter (candidate ad exempt) db)
  <-> In x db /\ ~ In x ad /\ ~ In x exempt.
Proof. now rewrite filter_In, candidate_spec. Qed.

(** The search of the exemption list returns membership and writes at most
    one line. *)
Lemma inExempt_eq exempt x st :
  inExempt exempt x st
  = (Returned (exempted exempt x),
     set_logFile
       (logFile st ++
          (if exempted exempt x && infoLogger st
           then [INFO ("Skipping " ++ x ++ ", exempt from removal")] else []))
       st).
Proof.
  induction exempt as [|y exempt IH]; simpl.
  - unfold ret. now rewrite app_nil_r, set_logFile_same.
  - destruct (String.eqb x y); simpl.
    + unfold bind. rewrite writeInfo_eq. reflexivity.
    + apply IH.
Qed.

(** Goals about the parts of a state that a step leaves alone. *)
Ltac frame :=
  unfold sameGlobals in *; simpl in *; intuition congruence.

(** ** The removal sink *)

Section Sink.
Variable env : Env.

(** Once [sql.Open] accepts the connection string, [removeComputer]
    returns, and its result tells whether [conn.Exec] gave an error. *)
Lemma removeComputer_opened name st :
  sql_Open env "mssql" (connString (config st)) = None ->
  exists st',
    removeComputer env name st
    = (Returned (isDone (sql_Exec env (deletes st) (connString (config st))
                           deleteWorkstation name)), st')
    /\ sameGlobals st st'
    /\ removeCalls st' = (removeCalls st ++ [name])%list
    /\ deletes st' = (deletes st ++ [name])%list.
Proof.
  intros Hopen. unfold removeComputer, bind, modify, buildConnString, get, ret.
  simpl. rewrite Hopen. simpl.
  destruct (sql_Exec env (deletes st) (connString (config st))
              deleteWorkstation name) as [err|n]; simpl;
    rewrite writeInfo_eq; simpl;
    (eexists; split; [reflexivity|]); frame.
Qed.

(** When [sql.Open] refuses the connection string, the call is recorded
    and the program panics before any statement is run. *)
Lemma removeComputer_refused name st err :
  sql_Open env "mssql" (connString (config st)) = Some err ->
  exists st',
    removeComputer env name st
    = (Aborted (Panic ("database connection failed: " ++ err)), st')
    /\ sameGlobals st st'
    /\ removeCalls st' = (removeCalls st ++ [name])%list
    /\ deletes st' = deletes st.
Proof.
  intros Hopen. unfold removeComputer, bind, modify, buildConnString, get, ret.
  simpl. rewrite Hopen. rewrite writeError_eq.
  eexists; split; [reflexivity|]. frame.
Qed.

Lemma iter_incr_shift k count :
  Nat.iter k incr (incr count) = Nat.iter (S k) incr count.
Proof. induction k as [|k IH]; simpl; [reflexivity | now rewrite IH]. Qed.

(** One round of the outer loop. *)
Lemma rangeDbComputers_cons x db count st :
  rangeDbComputers env (x :: db) count st
  = if inDirectory (adComputers st) x then rangeDbComputers env db count st
    else
      match inExempt (ExemptComputers (Database (config st))) x st with
      | (Returned true, st1) => rangeDbComputers env db count st1
      | (Returned false, st1) =>
          match removeComputer env x st1 with
          | (Returned removed, st2) =>
              rangeDbComputers env db (if removed then incr count else count) st2
          | (Aborted e, st2) => (Aborted e, st2)
          end
      | (Aborted e, st1) => (Aborted e, st1)
      end.
Proof.
  simpl. unfold bind, get, ret.
  destruct (inDirectory (adComputers st) x); simpl; [reflexivity|].
  destruct (inExempt _ x st) as [[[|]|e] st1]; simpl; try reflexivity.
  destruct (removeComputer env x st1) as [[[|]|e] st2]; reflexivity.
Qed.

(** The outer loop, when [sql.Open] accepts the connection string: every
    candidate is handed to [removeComputer] in inventory order, a delete
    is run for each, and [count] is incremented once per delete that the
    database answers without an error. *)
Lemma rangeDbComputers_opened db : forall count st,
  sql_Open env "mssql" (connString (config st)) = None ->
  exists st',
    rangeDbComputers env db count st
    = (Returned (Nat.iter (answered env (connString (config st)) (deletes st)
                             (candidates st db))
                   incr count), st')
    /\ sameGlobals st st'
    /\ removeCalls st' = (removeCalls st ++ candidates st db)%list
    /\ deletes st' = (deletes st ++ candidates st db)%list.
Proof.
  unfold candidates.
  induction db as [|x db IH]; intros count st Hopen.
  - exists st. simpl. unfold ret. rewrite !app_nil_r. frame.
  - rewrite rangeDbComputers_cons. cbn [filter].
    set (E := ExemptComputers (Database (config st))).
    assert (Hcx : candidate (adComputers st) E x
                  = negb (inDirectory (adComputers st) x) && negb (exempted E x))
      by reflexivity.
    destruct (inDirectory (adComputers st) x) eqn:Hdir.
    + rewrite Hcx. apply IH, Hopen.
    + rewrite inExempt_eq.
      set (st1 := set_logFile _ st).
      destruct (exempted E x) eqn:Hex; rewrite Hcx; cbn [negb andb].
      * destruct (IH count st1 Hopen) as (st' & Hrun & Hg & Hc & Hd).
        exists st'. split; [exact Hrun|]. split; [|split; assumption].
        subst st1. frame.
      * destruct (removeComputer_opened x st1 Hopen)
          as (st2 & Hrm & Hg2 & Hc2 & Hd2).
        rewrite Hrm.
        assert (Hcfg : config st2 = config st)
          by (destruct Hg2 as (H & _); exact H).
        assert (Had : adComputers st2 = adComputers st)
          by (destruct Hg2 as (_ & _ & H & _); exact H).
        assert (Hopen2 : sql_Open env "mssql" (connString (config st2)) = None)
          by (rewrite Hcfg; exact Hopen).
        change (config st1) with (config st) in *.
        change (deletes st1) with (deletes st) in *.
        change (removeCalls st1) with (removeCalls st) in *.
        cbn [answered].
        set (r := sql_Exec env (deletes st) (connString (config st))
                    deleteWorkstation x).
        destruct (IH (if isDone r then incr count else count) st2 Hopen2)
          as (st' & Hrun & Hg & Hc & Hd).
        rewrite Hcfg, Had, Hd2 in Hrun. rewrite Hrun.
        rewrite Hcfg, Had in Hc, Hd. fold E in Hc, Hd.
        exists st'. split; [|split; [|split]].
        -- fold E. destruct (isDone r).
           ++ rewrite iter_incr_shift. reflexivity.
           ++ reflexivity.
        -- subst st1. frame.
        -- rewrite Hc, Hc2. now rewrite <- app_assoc.
        -- rewrite Hd, Hd2. now rewrite <- app_assoc.
Qed.
End Sink.

(** ** The reconciliation loop *)

Section Engine.
Variable env : Env.

(** When [sql.Open] refuses the connection string, the loop stops at the
    first candidate: that call is the only one, and no delete is run. *)
Lemma rangeDbComputers_refused err db : forall count st,
  sql_Open env "mssql" (connString (config st)) = Some err ->
  exists r st',
    rangeDbComputers env db count st = (r, st')
    /\ sameGlobals st st'
    /\ removeCalls st' = (removeCalls st ++ firstn 1 (candidates st db))%list
    /\ deletes st' = deletes st.
Proof.
  unfold candidates.
  induction db as [|x db IH]; intros count st Hopen.
  - exists (Returned count), st. simpl. rewrite app_nil_r. frame.
  - rewrite rangeDbComputers_cons. cbn [filter].
    set (E := ExemptComputers (Database (config st))).
    assert (Hcx : candidate (adComputers st) E x
                  = negb (inDirectory (adComputers st) x) && negb (exempted E x))
      by reflexivity.
    destruct (inDirectory (adComputers st) x) eqn:Hdir.
    + rewrite Hcx. apply IH, Hopen.
    + rewrite inExempt_eq.
      set (st1 := set_logFile _ st).
      destruct (exempted E x) eqn:Hex; rewrite Hcx; cbn [negb andb].
      * destruct (IH count st1 Hopen) as (r & st' & Hrun & Hg & Hc & Hd).
        exists r, st'. split; [exact Hrun|]. split; [|split; assumption].
        subst st1. frame.
      * destruct (removeComputer_refused env x st1 err Hopen)
          as (st2 & Hrm & Hg2 & Hc2 & Hd2).
        rewrite Hrm. eexists _, st2. split; [reflexivity|].
        split; [subst st1; frame|]. split; assumption.
Qed.

Lemma findComputersToRemoveFromDB_eq st :
  findComputersToRemoveFromDB env st
  = match rangeDbComputers env (dbComputers st) 0 st with
    | (Returned count, st') =>
        (Returned count,
         set_logFile
           (logFile st' ++
              (if infoLogger st'
               then [INFO (Itoa count ++ " computers removed from database")]
               else [])) st')
    | (Aborted e, st') => (Aborted e, st')
    end.
Proof.
  unfold findComputersToRemoveFromDB, bind, get, ret.
  destruct (rangeDbComputers env (dbComputers st) 0 st) as [[count|e] st'];
    [|reflexivity].
  now rewrite writeInfo_eq.
Qed.

(** The whole function, when [sql.Open] accepts the connection string. *)
Lemma findComputersToRemoveFromDB_opened st :
  sql_Open env "mssql" (connString (config st)) = None ->
  exists st',
    findComputersToRemoveFromDB env st
    = (Returned (Nat.iter (answered env (connString (config st)) (deletes st)
                             (candidates st (dbComputers st)))
                   incr 0%Z), st')
    /\ sameGlobals st st'
    /\ removeCalls st' = (removeCalls st ++ candidates st (dbComputers st))%list
    /\ deletes st' = (deletes st ++ candidates st (dbComputers st))%list.
Proof.
  intros Hopen. rewrite findComputersToRemoveFromDB_eq.
  destruct (rangeDbComputers_opened env (dbComputers st) 0%Z st Hopen)
    as (st' & Hrun & Hg & Hc & Hd).
  rewrite Hrun. eexists. split; [reflexivity|]. frame.
Qed.

Lemma findComputersToRemoveFromDB_refused st err :
  sql_Open env "mssql" (connString (config st)) = Some err ->
  exists r st',
    findComputersToRemoveFromDB env st = (r, st')
    /\ removeCalls st'
       = (removeCalls st ++ firstn 1 (candidates st (dbComputers st)))%list
    /\ deletes st' = deletes st.
Proof.
  intros Hopen. rewrite findComputersToRemoveFromDB_eq.
  destruct (rangeDbComputers_refused err (dbComputers st) 0%Z st Hopen)
    as (r & st' & Hrun & Hg & Hc & Hd).
  rewrite Hrun. destruct r as [count|e]; eexists _, _;
    (split; [reflexivity|]); simpl; auto.
Qed.

(** [count] does not wrap around below [2 ^ 63] increments. *)
Lemma iter_incr k : (Z.of_nat k < 2 ^ 63)%Z -> Nat.iter k incr 0%Z = Z.of_nat k.
Proof.
  induction k as [|k IH]; intros Hk; [reflexivity|].
  rewrite Nat.iter_succ, IH by lia. unfold incr, wrap_int.
  rewrite Z.mod_small by lia. lia.
Qed.

Lemma answered_le dsn cands : forall hist,
  answered env dsn hist cands <= length cands.
Proof.
  induction cands as [|x cands IH]; intros hist; simpl; [lia|].
  specialize (IH (hist ++ [x])%list).
  destruct (isDone _); lia.
Qed.

Lemma candidates_length st db : length (candidates st db) <= length db.
Proof. apply filter_length_le. Qed.
End Engine.

Lemma In_firstn_1 {A} (x : A) l : In x (firstn 1 l) -> In x l.
Proof. destruct l as [|y l]; simpl; tauto. Qed.

Lemma count_occ_filter (f : string -> bool) l x :
  count_occ string_dec (filter f l) x
  = if f x then count_occ string_dec l x else 0.
Proof.
  induction l as [|y l IH]; simpl.
  - now destruct (f x).
  - destruct (f y) eqn:Hy; simpl; destruct (string_dec y x) as [->|Hne];
      rewrite IH; try reflexivity.
    + now rewrite Hy.
    + now rewrite Hy.
Qed.

Lemma answered_all env dsn cands : forall hist,
  (forall h name, isDone (sql_Exec env h dsn deleteWorkstation name) = true) ->
  answered env dsn hist cands = length cands.
Proof.
  induction cands as [|x cands IH]; intros hist Hall; simpl; [reflexivity|].
  now rewrite Hall, IH.
Qed.

(** What [removeComputer] writes to the log. *)
Lemma removeComputer_log env name st :
  sql_Open env "mssql" (connString (config st)) = None ->
  logFile (snd (removeComputer env name st))
  = (logFile st ++
     (if infoLogger st then
        [INFO match sql_Exec env (deletes st) (connString (config st))
                      deleteWorkstation name with
              | ExecError err => "Failed to remove workstion " ++ name ++ ": " ++ err
              | ExecDone _ => name ++ " removed from database"
              end]
      else []))%list.
Proof.
  intros Hopen. unfold removeComputer, bind, modify, buildConnString, get, ret.
  simpl. rewrite Hopen. simpl.
  destruct (sql_Exec env (deletes st) (connString (config st))
              deleteWorkstation name); simpl; rewrite writeInfo_eq; reflexivity.
Qed.

(** ** The removal set *)

(** C1: the identifiers handed to [removeComputer] by
    [findComputersToRemoveFromDB] are entries of the inventory that are
    neither in the directory list nor in the exemption list, whatever the
    database does; and when [sql.Open] accepts the connection string, so that
    the function returns, they are exactly those entries: the set handed to
    the sink is I \ (A \/ E). *)
Theorem sink_receives_inventory_minus_directory_and_exempt
    (env : Env) (st : State) :
  exists passed,
    removeCalls (snd (findComputersToRemoveFromDB env st))
    = (removeCalls st ++ passed)%list
    /\ (forall x, In x passed ->
          In x (dbComputers st)
          /\ ~ (In x (adComputers st)
                \/ In x (ExemptComputers (Database (config st)))))
    /\ (sql_Open env "mssql" (connString (config st)) = None ->
        (exists count, fst (findComputersToRemoveFromDB env st) = Returned count)
        /\ forall x, In x passed <->
             In x (dbComputers st)
             /\ ~ (In x (adComputers st)
                   \/ In x (ExemptComputers (Database (config st))))).
Proof.
  destruct (sql_Open env "mssql" (connString (config st))) as [err|] eqn:Hopen.
  - destruct (findComputersToRemoveFromDB_refused env st err Hopen)
      as (r & st' & Hrun & Hc & _).
    exists (firstn 1 (candidates st (dbComputers st))).
    rewrite Hrun. split; [exact Hc|]. split; [|discriminate].
    intros x Hx. apply In_firstn_1, candidates_spec in Hx. tauto.
  - destruct (findComputersToRemoveFromDB_opened env st Hopen)
      as (st' & Hrun & _ & Hc & _).
    exists (candidates st (dbComputers st)).
    rewrite Hrun. split; [exact Hc|]. split.
    + intros x Hx. apply candidates_spec in Hx. tauto.
    + intros _. split; [eexists; reflexivity|].
      intros x. unfold candidates. rewrite candidates_spec. tauto.
Qed.

Lemma sink_receives_inventory_minus_directory_and_exempt_witness :
  let env := sampleEnv (sampleConfig true false []) [] [] "" deleteFinds in
  let st := loaded (sampleConfig true false [])
              ["ALPHA"; "BETA"; "GAMMA"] ["ALPHA"; "BETA"] in
  sql_Open env "mssql" (connString (config st)) = None
  /\ exists passed,
       removeCalls (snd (findComputersToRemoveFromDB env st)) = passed
       /\ forall x, In x passed <->
            In x ["ALPHA"; "BETA"; "GAMMA"] /\ ~ (In x ["ALPHA"; "BETA"] \/ In x []).
Proof.
  intros env st. split; [reflexivity|].
  destruct (sink_receives_inventory_minus_directory_and_exempt env st)
    as (passed & Hcalls & _ & Heq).
  exists passed. split; [exact Hcalls|].
  apply Heq. reflexivity.
Defined.

(** ** Failures of single removals *)

(** C3, as the code has it: once the connection string is accepted,
    [removeComputer] returns [true] exactly when [conn.Exec] gives no error,
    without looking at the number of affected rows; an error is written to
    the log and is not fatal.  [findComputersToRemoveFromDB] then hands every
    candidate to the sink whatever the earlier answers were, and its count is
    the number of candidates for which [removeComputer] returned [true]. *)
Theorem failed_removal_is_logged_and_batch_continues (env : Env) (st : State) :
  sql_Open env "mssql" (connString (config st)) = None ->
  (len (dbComputers st) < 2 ^ 63)%Z ->
  let dsn := connString (config st) in
  (forall name,
     let answer := sql_Exec env (deletes st) dsn deleteWorkstation name in
     fst (removeComputer env name st) = Returned (isDone answer)
     /\ logFile (snd (removeComputer env name st))
        = (logFile st ++
           (if infoLogger st then
              [INFO match answer with
                    | ExecError err =>
                        "Failed to remove workstion " ++ name ++ ": " ++ err
                    | ExecDone _ => name ++ " removed from database"
                    end]
            else []))%list)
  /\ exists st',
       findComputersToRemoveFromDB env st
       = (Returned (Z.of_nat (answered env dsn (deletes st)
                                (candidates st (dbComputers st)))), st')
       /\ removeCalls st' = (removeCalls st ++ candidates st (dbComputers st))%list.
Proof.
  intros Hopen Hlen dsn. split.
  - intros name answer. split.
    + destruct (removeComputer_opened env name st Hopen) as (st' & Hrun & _).
      now rewrite Hrun.
    + now apply removeComputer_log.
  - destruct (findComputersToRemoveFromDB_opened env st Hopen)
      as (st' & Hrun & _ & Hc & _).
    exists st'. split; [|exact Hc].
    rewrite Hrun, iter_incr; [reflexivity|].
    pose proof (answered_le env (connString (config st))
                  (candidates st (dbComputers st)) (deletes st)).
    pose proof (candidates_length st (dbComputers st)).
    unfold len in Hlen. lia.
Qed.

Lemma failed_removal_is_logged_and_batch_continues_witness :
  let env := sampleEnv (sampleConfig true false []) [] [] "" (deleteFailsOn "BETA") in
  let st := loaded (sampleConfig true false []) ["ALPHA"; "BETA"; "GAMMA"] ["ALPHA"] in
  fst (removeComputer env "BETA" st) = Returned false
  /\ exists st',
       findComputersToRemoveFromDB env st = (Returned 1%Z, st')
       /\ removeCalls st' = ["BETA"; "GAMMA"].
Proof.
  intros env st.
  destruct (failed_removal_is_logged_and_batch_continues env st)
    as (Hone & st' & Hrun & Hcalls); [reflexivity | reflexivity |].
  split; [exact (proj1 (Hone "BETA"))|].
  exists st'. split; [exact Hrun | exact Hcalls].
Defined.

(** C3 as stated fails on a delete that affects no row: [conn.Exec] gives
    no error, [removeComputer] returns [true] and the row is counted. *)
Lemma delete_of_no_row_is_counted :
  let env := sampleEnv (sampleConfig true false []) [] [] "" deleteFindsNothing in
  let st := loaded (sampleConfig true false []) ["GHOST"] ["ALPHA"] in
  sql_Exec env [] (connString (config st)) deleteWorkstation "GHOST" = ExecDone 0
  /\ fst (removeComputer env "GHOST" st) = Returned true
  /\ fst (findComputersToRemoveFromDB env st) = Returned 1%Z.
Proof. repeat split. Qed.

(** ** The readers *)

Lemma set_adComputers_same st : set_adComputers (adComputers st) st = st.
Proof. destruct st; reflexivity. Qed.

Lemma set_dbComputers_same st : set_dbComputers (dbComputers st) st = st.
Proof. destruct st; reflexivity. Qed.

Lemma keeps_refl st : keeps st st.
Proof. unfold keeps; tauto. Qed.

Lemma keeps_trans st1 st2 st3 : keeps st1 st2 -> keeps st2 st3 -> keeps st1 st3.
Proof. unfold keeps; intuition congruence. Qed.

Ltac kept := unfold keeps in *; simpl in *; intuition congruence.

Section Readers.
Context {U : Unicode}.
Variable env : Env.

(** The row loop appends the upper-cased names in order until a row
    cannot be read. *)
Lemma scanRows_values names : forall st,
  scanRows (map ScanValue names) st
  = (Returned tt, set_dbComputers (dbComputers st ++ map ToUpper names) st).
Proof.
  induction names as [|n names IH]; intros st; simpl.
  - unfold ret. now rewrite app_nil_r, set_dbComputers_same.
  - unfold bind, modify. rewrite IH. simpl. now rewrite <- app_assoc.
Qed.

Lemma scanRows_keeps rows : forall st,
  keeps st (snd (scanRows rows st))
  /\ adComputers (snd (scanRows rows st)) = adComputers st.
Proof.
  induction rows as [|[n|err] rows IH]; intros st; simpl.
  - split; [apply keeps_refl | reflexivity].
  - unfold bind, modify.
    specialize (IH (set_dbComputers (dbComputers st ++ [ToUpper n]) st)).
    destruct (scanRows rows _) as [[[]|e] st']; simpl in *; split; kept.
  - rewrite writeError_eq. simpl. split; kept.
Qed.

Lemma listDBComputers_keeps st :
  keeps st (snd (listDBComputers env st))
  /\ adComputers (snd (listDBComputers env st)) = adComputers st.
Proof.
  unfold listDBComputers, bind, buildConnString, get, ret. simpl.
  destruct (sql_Open env "mssql" (connString (config st))).
  { rewrite writeError_eq. simpl. split; kept. }
  destruct (sql_Query env (connString (config st)) selectWorkstations)
    as [err|rows rowsErr].
  { rewrite writeError_eq. simpl. split; kept. }
  pose proof (scanRows_keeps rows st) as Hrows.
  destruct (scanRows rows st) as [[[]|e] st1]; simpl in *; [|exact Hrows].
  destruct rowsErr as [err|].
  - rewrite writeError_eq. simpl. split; kept.
  - rewrite writeInfo_eq. simpl. split; kept.
Qed.

(** When the table is read without an error, the inventory list grows by
    the upper-cased names, one per row and in the order of the rows. *)
Lemma listDBComputers_rows st names :
  sql_Open env "mssql" (connString (config st)) = None ->
  sql_Query env (connString (config st)) selectWorkstations
  = QueryRows (map ScanValue names) None ->
  exists st',
    listDBComputers env st = (Returned tt, st')
    /\ dbComputers st' = (dbComputers st ++ map ToUpper names)%list.
Proof.
  intros Hopen Hquery.
  unfold listDBComputers, bind, buildConnString, get, ret. simpl.
  rewrite Hopen, Hquery, scanRows_values. simpl.
  rewrite writeInfo_eq. eexists. split; reflexivity.
Qed.

(** The entry loop appends the upper-cased first values in order and
    stops with a run-time error at the first entry that has none. *)
Lemma rangeEntries_eq entries : forall st,
  rangeEntries entries st
  = (if snd (firstValues entries) then Returned tt else Aborted indexOutOfRange,
     set_adComputers
       (adComputers st ++ map ToUpper (fst (firstValues entries))) st).
Proof.
  induction entries as [|x entries IH]; intros st; simpl.
  - unfold ret. now rewrite app_nil_r, set_adComputers_same.
  - unfold firstValue.
    destruct (Attributes x) as [|a rest]; simpl.
    { unfold abort. now rewrite app_nil_r, set_adComputers_same. }
    destruct (Values a) as [|v vs]; simpl.
    { unfold abort. now rewrite app_nil_r, set_adComputers_same. }
    unfold bind, modify. rewrite IH.
    destruct (firstValues entries) as [names ok]; simpl.
    now rewrite <- app_assoc.
Qed.

Lemma firstValue_None x : firstValue x = None <-> lacksValue x.
Proof.
  unfold firstValue, lacksValue.
  destruct (Attributes x) as [|a rest].
  - tauto.
  - destruct (Values a) as [|v vs] eqn:Hv.
    + split; [intros _; right; now exists a, rest | reflexivity].
    + split; [discriminate|].
      intros [H|(a' & rest' & H & Hv')]; [discriminate|].
      injection H as -> ->. congruence.
Qed.

Lemma firstValues_fault entries :
  snd (firstValues entries) = false <-> exists x, In x entries /\ lacksValue x.
Proof.
  induction entries as [|x entries IH]; simpl.
  - split; [discriminate | intros (x & [] & _)].
  - destruct (firstValue x) as [v|] eqn:Hx.
    + destruct (firstValues entries) as [names ok]; simpl in *.
      rewrite IH. split.
      * intros (y & Hy & Hl). exists y. tauto.
      * intros (y & [<-|Hy] & Hl); [|exists y; tauto].
        apply firstValue_None in Hl. congruence.
    + simpl. split; [|reflexivity].
      intros _. exists x. split; [now left | now apply firstValue_None].
Qed.

Lemma firstValues_all entries names :
  map firstValue entries = map Some names ->
  firstValues entries = (names, true).
Proof.
  revert names. induction entries as [|x entries IH]; intros [|n names] H;
    simpl in *; try discriminate; [reflexivity|].
  injection H as Hx Hrest. rewrite Hx, (IH names Hrest). reflexivity.
Qed.
End Readers.

Section Directory.
Context {U : Unicode}.
Variable env : Env.

(** The reader, by the answers of the directory server. *)
Lemma listADComputers_eq st :
  listADComputers env st
  = match dialOf env st with
    | Some err => writeError ("unable to connect to AD server: " ++ err) st
    | None =>
        match bindOf env st with
        | Some err => writeError ("unable to bind to ldap: " ++ err) st
        | None =>
            match searchOf env st with
            | inl err => writeError ("ldap search error: " ++ err) st
            | inr [] => writeError "no results returned from ldap search" st
            | inr entries =>
                let names := fst (firstValues entries) in
                let st1 :=
                  set_adComputers (adComputers st ++ map ToUpper names) st in
                if snd (firstValues entries) then
                  writeInfo (Itoa (len (adComputers st1))
                             ++ " records retrieved from AD") st1
                else (Aborted indexOutOfRange, st1)
            end
        end
    end.
Proof.
  unfold dialOf, bindOf, searchOf, listADComputers, bind at 1, get at 1.
  destruct (ldap_DialURL env _); [reflexivity|].
  destruct (ldap_Bind env _ _); [reflexivity|].
  destruct (ldap_Search env _ _ _) as [err|[|x entries]]; [reflexivity| |].
  - unfold bind. simpl. now rewrite !writeError_eq.
  - unfold bind.
    replace (0 <? len (x :: entries))%Z with true
      by (symmetry; apply Z.ltb_lt; unfold len; simpl; lia).
    rewrite rangeEntries_eq. cbv zeta.
    destruct (snd (firstValues (x :: entries))); reflexivity.
Qed.

Lemma listADComputers_keeps st :
  keeps st (snd (listADComputers env st))
  /\ dbComputers (snd (listADComputers env st)) = dbComputers st.
Proof.
  rewrite listADComputers_eq.
  destruct (dialOf env st); [rewrite writeError_eq; split; kept|].
  destruct (bindOf env st); [rewrite writeError_eq; split; kept|].
  destruct (searchOf env st) as [err|[|x entries]];
    [rewrite writeError_eq; split; kept..|].
  cbv zeta. destruct (snd (firstValues (x :: entries)));
    [rewrite writeInfo_eq|]; split; kept.
Qed.

(** A search that returns no entry makes the reader panic, and so do the
    failures that can precede it. *)
Lemma listADComputers_no_entries st :
  searchOf env st = inr [] ->
  exists msg, fst (listADComputers env st) = Aborted (Panic msg).
Proof.
  intros Hsearch. rewrite listADComputers_eq, Hsearch.
  destruct (dialOf env st); [rewrite writeError_eq; eexists; reflexivity|].
  destruct (bindOf env st); rewrite writeError_eq; eexists; reflexivity.
Qed.
End Directory.

Section Cloud.
Context {U : Unicode}.
Variable env : Env.

(** The parsing loop stores the name of every kept segment and counts
    them. *)
Lemma rangePsData_eq psData : forall skip count st,
  rangePsData psData skip count st
  = (Returned (Nat.iter (length (reportLines psData skip)) incr count),
     set_adComputers
       (adComputers st ++ map deviceName (reportLines psData skip)) st).
Proof.
  unfold deviceName.
  induction psData as [|c psData IH]; intros skip count st; simpl.
  - unfold ret. now rewrite app_nil_r, set_adComputers_same.
  - destruct skip; simpl.
    + destruct (HasPrefix (TrimSpace c) "-----------"); apply IH.
    + destruct (String.eqb (TrimSpace c) ""); simpl.
      * unfold ret. now rewrite app_nil_r, set_adComputers_same.
      * unfold bind, modify. rewrite IH. simpl.
        now rewrite iter_incr_shift, <- app_assoc.
Qed.

(** The reader once PowerShell has run and exited without an error. *)
Lemma listAzureComputers_exited st :
  pipesOpen env ->
  start_err (sessionOf env st) = None ->
  wait_err (sessionOf env st) = None ->
  let kept := reportLines (Split (out (sessionOf env st)) CR) true in
  listAzureComputers env st
  = (Returned tt,
     set_logFile
       (logFile st ++
          (if infoLogger st
           then [INFO (Itoa (Nat.iter (length kept) incr 0%Z)
                       ++ " records retrieved from Azure")]
           else []))
       (set_adComputers (adComputers st ++ map deviceName kept) st)).
Proof.
  unfold pipesOpen, sessionOf. intros (Hin & Herr & Hout) Hstart Hwait.
  unfold listAzureComputers. rewrite Hin, Herr, Hout.
  unfold bind at 1, get at 1. rewrite Hstart, Hwait.
  unfold bind. rewrite rangePsData_eq, writeInfo_eq. reflexivity.
Qed.
End Cloud.

(** ** Cutting a text at a byte *)

Lemma Split_noByte sep s : noByte sep s = true -> Split s sep = [s].
Proof.
  induction s as [|c s IH]; simpl; [reflexivity|].
  intros H. apply andb_true_iff in H as [Hc Hs].
  apply negb_true_iff in Hc. rewrite Hc, (IH Hs). reflexivity.
Qed.

Lemma Split_app_sep sep s t :
  noByte sep s = true -> Split (s ++ String sep t) sep = s :: Split t sep.
Proof.
  induction s as [|c s IH]; simpl.
  - intros _. now rewrite Ascii.eqb_refl.
  - intros H. apply andb_true_iff in H as [Hc Hs].
    apply negb_true_iff in Hc. rewrite Hc, (IH Hs). reflexivity.
Qed.

(** Cutting the joined segments gives the segments back. *)
Lemma Split_join sep l :
  l <> [] -> Forall (fun s => noByte sep s = true) l -> Split (join sep l) sep = l.
Proof.
  induction l as [|s l IH]; [congruence|].
  intros _ Hall. inversion Hall as [|? ? Hs Hl]; subst.
  destruct l as [|s' l].
  - simpl. now apply Split_noByte.
  - change (join sep (s :: s' :: l)) with (s ++ String sep (join sep (s' :: l))).
    rewrite Split_app_sep by assumption.
    rewrite IH; [reflexivity | discriminate | assumption].
Qed.

Section Report.
Context {U : Unicode}.

(** Segments before the line of dashes are skipped. *)
Lemma reportLines_header header rest :
  Forall (fun c => HasPrefix (TrimSpace c) "-----------" = false) header ->
  reportLines (header ++ rest) true = reportLines rest true.
Proof.
  induction 1 as [|c header Hc _ IH]; [reflexivity|].
  simpl. now rewrite Hc.
Qed.

(** After the line of dashes, segments are kept up to the end of the
    output or to the first segment that is empty once trimmed. *)
Lemma reportLines_devices devices rest :
  Forall (fun c => TrimSpace c <> "") devices ->
  rest = [] \/ (exists blank junk, rest = blank :: junk /\ TrimSpace blank = "") ->
  reportLines (devices ++ rest) false = devices.
Proof.
  intros Hall Hrest. induction Hall as [|c devices Hc _ IH]; simpl.
  - destruct Hrest as [->|(blank & junk & -> & Hb)]; [reflexivity|].
    simpl. now rewrite Hb.
  - apply String.eqb_neq in Hc. now rewrite Hc, IH.
Qed.
End Report.

(** ** Repeated inventory rows *)

(** C10: the inventory is a list.  The inventory reader appends the
    upper-cased name of every row, so that rows with one upper-casing give
    repeated entries; an identifier that is neither in the directory list
    nor exempt is handed to [removeComputer] once for each of its
    occurrences in [dbComputers], and the count is the number of deletes
    answered without an error, each occurrence counting for itself. *)
Theorem repeated_rows_are_removed_once_per_occurrence
    (U : Unicode) (env : Env) (st : State) :
  sql_Open env "mssql" (connString (config st)) = None ->
  (len (dbComputers st) < 2 ^ 63)%Z ->
  (forall names,
     sql_Query env (connString (config st)) selectWorkstations
     = QueryRows (map ScanValue names) None ->
     dbComputers (snd (listDBComputers env st))
     = (dbComputers st ++ map ToUpper names)%list)
  /\ exists count st' passed,
       findComputersToRemoveFromDB env st = (Returned count, st')
       /\ removeCalls st' = (removeCalls st ++ passed)%list
       /\ (forall x,
             ~ In x (adComputers st) ->
             ~ In x (ExemptComputers (Database (config st))) ->
             count_occ string_dec passed x
             = count_occ string_dec (dbComputers st) x)
       /\ count = Z.of_nat (answered env (connString (config st)) (deletes st) passed)
       /\ ((forall hist name,
              isDone (sql_Exec env hist (connString (config st))
                        deleteWorkstation name) = true) ->
           count = len passed).
Proof.
  intros Hopen Hlen. split.
  { intros names Hquery.
    destruct (listDBComputers_rows env st names Hopen Hquery) as (st' & -> & Hdb).
    exact Hdb. }
  destruct (findComputersToRemoveFromDB_opened env st Hopen)
    as (st' & Hrun & _ & Hc & _).
  pose proof (answered_le env (connString (config st))
                (candidates st (dbComputers st)) (deletes st)) as Hle.
  pose proof (candidates_length st (dbComputers st)) as Hle'.
  eexists _, st', (candidates st (dbComputers st)).
  split; [exact Hrun|]. split; [exact Hc|]. split; [|split].
  - intros x Had Hex. unfold candidates. rewrite count_occ_filter.
    assert (Hx : candidate (adComputers st)
                   (ExemptComputers (Database (config st))) x = true)
      by (apply candidate_spec; tauto).
    now rewrite Hx.
  - apply iter_incr. unfold len in Hlen. lia.
  - intros Hall. rewrite iter_incr by (unfold len in Hlen; lia).
    now rewrite answered_all.
Qed.

Lemma repeated_rows_are_removed_once_per_occurrence_witness :
  let c := sampleConfig true false [] in
  let env := sampleEnv c ["lab-01"; "alpha"; "LAB-01"] [] "" deleteFinds in
  dbComputers (snd (@listDBComputers asciiOnly env (loaded c [] ["ALPHA"])))
  = ["LAB-01"; "ALPHA"; "LAB-01"]
  /\ exists st',
       findComputersToRemoveFromDB env
         (loaded c ["LAB-01"; "ALPHA"; "LAB-01"] ["ALPHA"])
       = (Returned 2%Z, st')
       /\ removeCalls st' = ["LAB-01"; "LAB-01"].
Proof.
  intros c env. split.
  - destruct (repeated_rows_are_removed_once_per_occurrence asciiOnly env
                (loaded c [] ["ALPHA"])) as (Hrows & _);
      [reflexivity | reflexivity |].
    apply (Hrows ["lab-01"; "alpha"; "LAB-01"]). reflexivity.
  - set (st := loaded c ["LAB-01"; "ALPHA"; "LAB-01"] ["ALPHA"]).
    destruct (repeated_rows_are_removed_once_per_occurrence asciiOnly env st)
      as (_ & count & st' & passed & Hrun & Hcalls & _ & _ & Hall);
      [reflexivity | reflexivity |].
    exists st'.
    assert (Hst : st' = snd (findComputersToRemoveFromDB env st))
      by now rewrite Hrun.
    assert (Hp : passed = ["LAB-01"; "LAB-01"])
      by (rewrite Hst in Hcalls; exact (eq_sym Hcalls)).
    split; [|rewrite Hcalls; exact Hp].
    rewrite Hrun, (Hall (fun _ _ => eq_refl)), Hp. reflexivity.
Defined.

(** ** Upper-casing *)

Ltac bytes c := destruct c as [[] [] [] [] [] [] [] []].


Lemma isLower_upperByte c : isLower (upperByte c) = false.
Proof. bytes c; reflexivity. Qed.

Lemma upperByte_below_RuneSelf c :
  (byteval (upperByte c) <? RuneSelf)%N = (byteval c <? RuneSelf)%N.
Proof. bytes c; reflexivity. Qed.

Lemma upperByte_other c : isLower c = false -> upperByte c = c.
Proof. unfold upperByte. now intros ->. Qed.





Lemma isASCII_app s t : isASCII (s ++ t) = isASCII s && isASCII t.
Proof.
  induction s as [|c s IH]; simpl; [reflexivity|].
  now rewrite IH, andb_assoc.
Qed.


Lemma hasLower_mapBytes_upper s : hasLower (mapBytes upperByte s) = false.
Proof.
  induction s as [|c s IH]; simpl; [reflexivity|].
  now rewrite isLower_upperByte, IH.
Qed.

Lemma isASCII_mapBytes_upper s : isASCII (mapBytes upperByte s) = isASCII s.
Proof.
  induction s as [|c s IH]; simpl; [reflexivity|].
  now rewrite upperByte_below_RuneSelf, IH.
Qed.

Lemma mapBytes_upper_no_lower s : hasLower s = false -> mapBytes upperByte s = s.
Proof.
  induction s as [|c s IH]; simpl; [reflexivity|].
  intros H. apply orb_false_iff in H as [Hc Hs].
  now rewrite (upperByte_other c Hc), (IH Hs).
Qed.




Section Upper.
Context {U : Unicode}.

(** On a string of ASCII bytes [ToUpper] is the byte-wise folding. *)
Lemma ToUpper_ascii s : isASCII s = true -> ToUpper s = mapBytes upperByte s.
Proof.
  intros H. unfold ToUpper. rewrite H.
  destruct (hasLower s) eqn:Hl; [reflexivity|].
  symmetry. now apply mapBytes_upper_no_lower.
Qed.


End Upper.





(** ** The run *)

Lemma bind_eq {A B} (c : Go A) (k : A -> Go B) st :
  bind c k st
  = match c st with
    | (Returned a, st') => k a st'
    | (Aborted e, st') => (Aborted e, st')
    end.
Proof. reflexivity. Qed.

(** The log block panics and leaves the state alone, or it returns and has
    at most switched the loggers on. *)
Lemma openLog_cases env st :
  (exists msg, openLog env st = (Aborted (Panic msg), st))
  \/ (exists st', openLog env st = (Returned tt, st')
                  /\ config st' = config st
                  /\ removeCalls st' = removeCalls st
                  /\ deletes st' = deletes st).
Proof.
  unfold openLog, bind, get.
  destruct (log_Enabled (Logging (config st))).
  - destruct (time_Now env) as [[year month] day].
    destruct (os_OpenFile env _ _) as [err|].
    + left. eexists. reflexivity.
    + right. eexists. split; [reflexivity | simpl; tauto].
  - right. eexists. split; [reflexivity | tauto].
Qed.

Section Aborts.
Context {U : Unicode}.
Variable env : Env.

Lemma scanRows_aborts rows : forall st e st',
  scanRows rows st = (Aborted e, st') -> exists msg, e = Panic msg.
Proof.
  induction rows as [|[n|err] rows IH]; intros st e st'; simpl.
  - discriminate.
  - unfold bind, modify. apply IH.
  - rewrite writeError_eq. intros H. injection H as <- _. eauto.
Qed.

(** The inventory reader stops in no other way than by [writeError]. *)
Lemma listDBComputers_aborts st e st' :
  listDBComputers env st = (Aborted e, st') -> exists msg, e = Panic msg.
Proof.
  unfold listDBComputers, bind, buildConnString, get, ret. simpl.
  destruct (sql_Open env "mssql" (connString (config st))).
  { rewrite writeError_eq. intros H. injection H as <- _. eauto. }
  destruct (sql_Query env (connString (config st)) selectWorkstations)
    as [err|rows rowsErr].
  { rewrite writeError_eq. intros H. injection H as <- _. eauto. }
  destruct (scanRows rows st) as [[[]|r] st1] eqn:Hscan.
  - destruct rowsErr.
    + rewrite writeError_eq. intros H. injection H as <- _. eauto.
    + rewrite writeInfo_eq. discriminate.
  - intros H. injection H as <- _. eapply scanRows_aborts, Hscan.
Qed.
End Aborts.

(** C4: when the primary directory is enabled and its search returns no
    entry, [main] panics and no call of [removeComputer] and no delete has
    taken place; the panic of [listADComputers] itself carries the message
    of the empty search and is written to the error log. *)
Theorem empty_directory_search_aborts_before_any_removal
    (U : Unicode) (env : Env) (c : Configuration) :
  viper_Unmarshal env = inr c ->
  ad_Enabled (ActiveDirectory c) = true ->
  ldap_Search env (ad_Dn (ActiveDirectory c)) "(&(objectClass=computer))" ["cn"]
  = inr [] ->
  (exists msg st',
     main env initial = (Aborted (Panic msg), st')
     /\ removeCalls st' = [] /\ deletes st' = [])
  /\ (forall st,
        config st = c -> dialOf env st = None -> bindOf env st = None ->
        listADComputers env st
        = (Aborted (Panic "no results returned from ldap search"),
           set_logFile
             (logFile st ++
                (if errorLogger st
                 then [ERROR "no results returned from ldap search"] else []))
             st)).
Proof.
  intros Hunm Had Hsearch. split.
  - unfold main. destruct (viper_ReadInConfig env) as [err|].
    { eexists _, _. split; [reflexivity | split; reflexivity]. }
    rewrite Hunm, bind_eq. unfold modify at 1.
    set (st0 := set_config c initial).
    assert (H0 : config st0 = c /\ removeCalls st0 = [] /\ deletes st0 = [])
      by (subst st0; simpl; tauto).
    clearbody st0. rewrite bind_eq.
    destruct (openLog_cases env st0) as [(msg & ->)|(st1 & -> & H1)].
    { eexists _, _. split; [reflexivity | tauto]. }
    rewrite bind_eq, writeInfo_eq.
    set (st2 := set_logFile _ st1).
    assert (H2 : config st2 = c /\ removeCalls st2 = [] /\ deletes st2 = [])
      by (subst st2; simpl; intuition congruence).
    clearbody st2. rewrite bind_eq.
    destruct (listDBComputers_keeps env st2) as [Hk3 _].
    destruct (listDBComputers env st2) as [[[]|e] st3] eqn:Hdb; simpl in Hk3.
    2:{ destruct (listDBComputers_aborts env st2 e st3 Hdb) as [msg ->].
        eexists _, _. split; [reflexivity|]. kept. }
    rewrite bind_eq. unfold get at 1.
    assert (H3 : config st3 = c) by kept.
    rewrite H3, Had, bind_eq, bind_eq, writeInfo_eq.
    set (st4 := set_logFile _ st3).
    assert (H4 : config st4 = c /\ removeCalls st4 = [] /\ deletes st4 = [])
      by (subst st4; kept).
    clearbody st4.
    assert (Hs : searchOf env st4 = inr [])
      by (unfold searchOf; destruct H4 as [-> _]; exact Hsearch).
    destruct (listADComputers_no_entries env st4 Hs) as [msg Hmsg].
    destruct (listADComputers_keeps env st4) as [Hk5 _].
    destruct (listADComputers env st4) as [r st5]. simpl in Hmsg, Hk5. subst r.
    eexists _, _. split; [reflexivity|]. kept.
  - intros st Hc Hdial Hbind. rewrite listADComputers_eq, Hdial, Hbind.
    unfold searchOf. rewrite Hc, Hsearch. apply writeError_eq.
Qed.

Lemma empty_directory_search_aborts_before_any_removal_witness :
  let c := sampleConfig true false [] in
  let env := sampleEnv c ["ALPHA"; "BETA"] [] "" deleteFinds in
  exists msg st',
    @main asciiOnly env initial = (Aborted (Panic msg), st')
    /\ removeCalls st' = [] /\ deletes st' = [].
Proof.
  intros c env.
  apply (empty_directory_search_aborts_before_any_removal asciiOnly env c);
    reflexivity.
Defined.

(** ** Entries without a value *)

(** C9: once the search has answered, [listADComputers] stops with the
    run-time error of an index out of range exactly when some entry has no
    attribute or a first attribute without a value, and it returns exactly
    when there is at least one entry and every entry has a first value. *)
Theorem entry_without_value_stops_the_reader
    (U : Unicode) (env : Env) (st : State) (entries : list Entry) :
  dialOf env st = None -> bindOf env st = None ->
  searchOf env st = inr entries ->
  (fst (listADComputers env st) = Aborted indexOutOfRange
   <-> exists x, In x entries /\ lacksValue x)
  /\ (fst (listADComputers env st) = Returned tt
      <-> entries <> [] /\ forall x, In x entries -> ~ lacksValue x).
Proof.
  intros Hdial Hbind Hsearch.
  rewrite listADComputers_eq, Hdial, Hbind, Hsearch.
  destruct entries as [|x entries].
  - rewrite writeError_eq. simpl. split; split.
    + discriminate.
    + intros (y & [] & _).
    + discriminate.
    + intros [H _]. congruence.
  - cbv zeta. pose proof (firstValues_fault (x :: entries)) as Hfault.
    destruct (snd (firstValues (x :: entries))).
    + rewrite writeInfo_eq. simpl. split; split.
      * discriminate.
      * intros H. apply Hfault in H. discriminate.
      * intros _. split; [discriminate|].
        intros y Hy Hl. assert (true = false) by (apply Hfault; eauto).
        discriminate.
      * reflexivity.
    + simpl. split; split.
      * intros _. now apply Hfault.
      * reflexivity.
      * discriminate.
      * intros [_ Hall]. destruct (proj1 Hfault eq_refl) as (y & Hy & Hl).
        now destruct (Hall y Hy).
Qed.

Lemma entry_without_value_stops_the_reader_witness :
  let c := sampleConfig true false [] in
  let env := sampleEnv c [] [computer "PC1"; bareEntry "CN=ORPHAN"] "" deleteFinds in
  fst (@listADComputers asciiOnly env (loaded c [] [])) = Aborted indexOutOfRange.
Proof.
  intros c env.
  apply (entry_without_value_stops_the_reader asciiOnly env (loaded c [] [])
           [computer "PC1"; bareEntry "CN=ORPHAN"]); try reflexivity.
  exists (bareEntry "CN=ORPHAN"). split; [right; now left | now left].
Defined.

(** ** The cloud report *)

(** C5: when PowerShell exits without an error and its report holds no
    device line, [listAzureComputers] returns without an error, adds nothing
    to [adComputers], leaves the other variables alone and reports zero
    records. *)
Theorem empty_cloud_report_is_not_an_error
    (U : Unicode) (env : Env) (st : State) :
  pipesOpen env ->
  start_err (sessionOf env st) = None ->
  wait_err (sessionOf env st) = None ->
  reportLines (Split (out (sessionOf env st)) CR) true = [] ->
  exists st',
    listAzureComputers env st = (Returned tt, st')
    /\ adComputers st' = adComputers st
    /\ dbComputers st' = dbComputers st
    /\ keeps st st'
    /\ logFile st'
       = (logFile st
          ++ (if infoLogger st then [INFO "0 records retrieved from Azure"] else []))%list.
Proof.
  intros Hpipes Hstart Hwait Hnone.
  rewrite (listAzureComputers_exited env st Hpipes Hstart Hwait), Hnone.
  eexists. split; [reflexivity|]. simpl. rewrite app_nil_r.
  repeat split.
Qed.

Lemma empty_cloud_report_is_not_an_error_witness :
  let c := sampleConfig true true [] in
  let env := sampleEnv c [] [] reportEmpty deleteFinds in
  exists st',
    @listAzureComputers asciiOnly env (loaded c ["ALPHA"] ["ALPHA"])
    = (Returned tt, st')
    /\ adComputers st' = ["ALPHA"].
Proof.
  intros c env.
  destruct (empty_cloud_report_is_not_an_error asciiOnly env
              (loaded c ["ALPHA"] ["ALPHA"]))
    as (st' & Hrun & Had & _); try reflexivity.
  - repeat split.
  - exists st'. split; [exact Hrun | exact Had].
Defined.

(** C6, as the code has it: the report is cut at carriage returns.  The
    segments up to and including the first one that starts, once trimmed,
    with eleven dashes are skipped; each following segment gives one device
    name, trimmed and upper-cased, up to the end of the report or the first
    segment that is empty once trimmed; what follows that segment is
    ignored. *)
Theorem report_is_cut_at_carriage_returns
    (U : Unicode) (env : Env) (st : State)
    (header : list string) (dashes : string) (devices rest : list string) :
  pipesOpen env ->
  start_err (sessionOf env st) = None ->
  wait_err (sessionOf env st) = None ->
  out (sessionOf env st) = join CR (header ++ dashes :: devices ++ rest) ->
  Forall (fun c => noByte CR c = true) (header ++ dashes :: devices ++ rest) ->
  Forall (fun c => HasPrefix (TrimSpace c) "-----------" = false) header ->
  HasPrefix (TrimSpace dashes) "-----------" = true ->
  Forall (fun c => TrimSpace c <> "") devices ->
  rest = [] \/ (exists blank junk, rest = blank :: junk /\ TrimSpace blank = "") ->
  exists st',
    listAzureComputers env st = (Returned tt, st')
    /\ adComputers st'
       = (adComputers st ++ map (fun c => ToUpper (TrimSpace c)) devices)%list.
Proof.
  intros Hpipes Hstart Hwait Hout Hcr Hheader Hdashes Hdevices Hrest.
  rewrite (listAzureComputers_exited env st Hpipes Hstart Hwait).
  eexists. split; [reflexivity|]. simpl.
  rewrite Hout, Split_join; [|now destruct header|exact Hcr].
  rewrite (reportLines_header header _ Hheader). simpl. rewrite Hdashes.
  now rewrite (reportLines_devices devices rest Hdevices Hrest).
Qed.

Lemma report_is_cut_at_carriage_returns_witness :
  let c := sampleConfig true true [] in
  let env := sampleEnv c [] [] reportCRLF deleteFinds in
  exists st',
    @listAzureComputers asciiOnly env (loaded c [] ["ALPHA"]) = (Returned tt, st')
    /\ adComputers st' = ["ALPHA"; "DEVICE1"; "DEVICE2"].
Proof.
  intros c env.
  apply (report_is_cut_at_carriage_returns asciiOnly env (loaded c [] ["ALPHA"])
           ["Header"] (LF ++ "-----------") [LF ++ "DEVICE1"; LF ++ "DEVICE2"]
           [LF; LF ++ "Trailing junk"]); try reflexivity.
  - repeat split.
  - repeat constructor.
  - repeat constructor.
  - repeat constructor; discriminate.
  - right. now exists LF, [LF ++ "Trailing junk"].
Defined.

(** On the two sample reports that follow only ASCII bytes are met, and the
    reader does the same with any Unicode tables. *)
Lemma sample_reports_need_no_tables (U : Unicode) (st : State) :
  let c := sampleConfig true true [] in
  @listAzureComputers U (sampleEnv c [] [] reportLF deleteFinds) st
  = @listAzureComputers asciiOnly (sampleEnv c [] [] reportLF deleteFinds) st
  /\ @listAzureComputers U (sampleEnv c [] [] reportPadded deleteFinds) st
     = @listAzureComputers asciiOnly (sampleEnv c [] [] reportPadded deleteFinds) st.
Proof. split; reflexivity. Qed.

(** C6 as stated fails on its own example: the report written with line
    feeds only holds no carriage return, is one segment that does not start
    with dashes, and gives no device. *)
Lemma report_with_line_feeds_gives_no_device :
  let c := sampleConfig true true [] in
  let env := sampleEnv c [] [] reportLF deleteFinds in
  Split reportLF CR = [reportLF]
  /\ @listAzureComputers asciiOnly env (loaded c [] [])
     = (Returned tt,
        set_logFile [INFO "0 records retrieved from Azure"] (loaded c [] []))
  /\ ~ In "DEVICE1" (adComputers (snd (@listAzureComputers asciiOnly env (loaded c [] [])))).
Proof.
  intros c env. split; [reflexivity|]. split; [reflexivity|].
  simpl. tauto.
Qed.

(** ** What the readers store *)




(** ** Exempt entries *)

(** C2, on a run: the configuration exempts ["pc-lab-07"], the table holds
    that machine and the directory does not; the inventory identifier is the
    upper-casing of the exempt entry, and it is handed to [removeComputer]
    and deleted. *)
Theorem lower_case_exempt_entry_is_not_honoured (U : Unicode) :
  let c := sampleConfig true false ["pc-lab-07"] in
  let env := sampleEnv c ["pc-lab-07"; "dc1"] [computer "DC1"] "" deleteFinds in
  dbComputers (snd (main env initial)) = ["PC-LAB-07"; "DC1"]
  /\ ToUpper "pc-lab-07" = "PC-LAB-07"
  /\ fst (main env initial) = Returned 1%Z
  /\ removeCalls (snd (main env initial)) = ["PC-LAB-07"]
  /\ deletes (snd (main env initial)) = ["PC-LAB-07"].
Proof. repeat split. Qed.

(** ** A run without failure *)

Section WholeRun.
Context {U : Unicode}.
Variable env : Env.

Lemma listADComputers_values st entries names :
  dialOf env st = None -> bindOf env st = None ->
  searchOf env st = inr entries -> entries <> [] ->
  map firstValue entries = map Some names ->
  exists st',
    listADComputers env st = (Returned tt, st')
    /\ adComputers st' = (adComputers st ++ map ToUpper names)%list
    /\ dbComputers st' = dbComputers st /\ keeps st st'.
Proof.
  intros Hdial Hbind Hsearch Hne Hnames.
  rewrite listADComputers_eq, Hdial, Hbind, Hsearch.
  rewrite (firstValues_all entries names Hnames).
  destruct entries as [|x entries]; [congruence|].
  cbv zeta. simpl. rewrite writeInfo_eq.
  eexists. split; [reflexivity|]. simpl. repeat split.
Qed.

(** When no collaborator fails, [main] returns; the inventory list is the
    upper-cased rows of the table, the directory list is the union of the
    enabled sources, and the names handed to [removeComputer] are the
    candidates of the two lists and the configured exemptions. *)
Lemma main_completes c rows entries names :
  viper_ReadInConfig env = None ->
  viper_Unmarshal env = inr c ->
  (forall file, os_OpenFile env (log_Location (Logging c)) file = None) ->
  sql_Open env "mssql" (connString c) = None ->
  sql_Query env (connString c) selectWorkstations
  = QueryRows (map ScanValue rows) None ->
  (ad_Enabled (ActiveDirectory c) = true ->
   ldap_DialURL env ("ldap://" ++ ad_Host (ActiveDirectory c) ++ ":389") = None
   /\ ldap_Bind env (ad_Domain (ActiveDirectory c) ++ "\"
                     ++ ad_Username (ActiveDirectory c))
        (ad_Password (ActiveDirectory c)) = None
   /\ ldap_Search env (ad_Dn (ActiveDirectory c)) "(&(objectClass=computer))"
        ["cn"] = inr entries
   /\ entries <> []
   /\ map firstValue entries = map Some names) ->
  (az_Enabled (Azure c) = true ->
   pipesOpen env
   /\ start_err (powershell env (script c)) = None
   /\ wait_err (powershell env (script c)) = None) ->
  exists count st',
    main env initial = (Returned count, st')
    /\ config st' = c
    /\ dbComputers st' = map ToUpper rows
    /\ adComputers st' = directoryList env c names
    /\ removeCalls st'
       = filter (candidate (directoryList env c names) (ExemptComputers (Database c)))
           (map ToUpper rows).
Proof.
  intros Hread Hunm Hfile Hopen Hquery Had Haz.
  unfold main. rewrite Hread, Hunm, bind_eq. unfold modify at 1.
  set (st0 := set_config c initial).
  assert (H0 : config st0 = c /\ dbComputers st0 = [] /\ adComputers st0 = []
               /\ removeCalls st0 = [])
    by (subst st0; simpl; tauto).
  clearbody st0. rewrite bind_eq.
  assert (Hlog : exists st1,
             openLog env st0 = (Returned tt, st1)
             /\ config st1 = c /\ dbComputers st1 = [] /\ adComputers st1 = []
             /\ removeCalls st1 = []).
  { unfold openLog, bind, get. destruct H0 as (Hc & H0). rewrite Hc.
    destruct (log_Enabled (Logging c)).
    - destruct (time_Now env) as [[year month] day]. rewrite Hfile.
      eexists. split; [reflexivity | simpl; tauto].
    - eexists. split; [reflexivity | tauto]. }
  destruct Hlog as (st1 & -> & H1).
  rewrite bind_eq, writeInfo_eq.
  set (st2 := set_logFile _ st1).
  assert (H2 : config st2 = c /\ dbComputers st2 = [] /\ adComputers st2 = []
               /\ removeCalls st2 = [])
    by (subst st2; simpl; tauto).
  clearbody st2. clear st0 H0 st1 H1. rewrite bind_eq.
  destruct H2 as (Hc2 & Hdb2 & Had2 & Hrm2).
  destruct (listDBComputers_rows env st2 rows) as (st3 & Hrun3 & Hdb3);
    [now rewrite Hc2 | now rewrite Hc2 |].
  destruct (listDBComputers_keeps env st2) as [Hk3 Had3].
  rewrite Hrun3 in Hk3, Had3 |- *. simpl in Hk3, Had3.
  rewrite Hdb2 in Hdb3. simpl in Hdb3.
  assert (Hc3 : config st3 = c) by kept.
  assert (Hrm3 : removeCalls st3 = []) by kept.
  rewrite Had2 in Had3. clear st2 Hc2 Hdb2 Had2 Hrm2 Hrun3 Hk3.
  rewrite bind_eq. unfold get at 1. rewrite Hc3, bind_eq.
  (* the primary directory *)
  assert (Hprimary : exists st5,
            (if ad_Enabled (ActiveDirectory c)
             then bind (writeInfo "Loading the list of computers from Active Directory")
                       (fun _ => listADComputers env)
             else ret tt) st3 = (Returned tt, st5)
            /\ config st5 = c /\ dbComputers st5 = map ToUpper rows
            /\ adComputers st5
               = (if ad_Enabled (ActiveDirectory c) then map ToUpper names else [])
            /\ removeCalls st5 = []).
  { destruct (ad_Enabled (ActiveDirectory c)).
    - destruct (Had eq_refl) as (Hdial & Hbind & Hsearch & Hne & Hnames).
      rewrite bind_eq, writeInfo_eq.
      set (st4 := set_logFile _ st3).
      destruct (listADComputers_values st4 entries names)
        as (st5 & Hrun5 & Had5 & Hdb5 & Hk5);
        try (unfold dialOf, bindOf, searchOf; subst st4; simpl; rewrite Hc3);
        try assumption.
      rewrite Hrun5. exists st5. split; [reflexivity|].
      subst st4. simpl in *. rewrite Had3 in Had5. kept.
    - exists st3. split; [reflexivity | tauto]. }
  destruct Hprimary as (st5 & -> & Hc5 & Hdb5 & Had5 & Hrm5).
  clear st3 Hdb3 Had3 Hc3 Hrm3.
  rewrite bind_eq. unfold get at 1. rewrite Hc5, bind_eq.
  (* the cloud directory *)
  assert (Hcloud : exists st7,
            (if az_Enabled (Azure c)
             then bind (writeInfo "Loading the list of computers from Azure")
                       (fun _ => listAzureComputers env)
             else ret tt) st5 = (Returned tt, st7)
            /\ config st7 = c /\ dbComputers st7 = map ToUpper rows
            /\ adComputers st7 = directoryList env c names
            /\ removeCalls st7 = [] /\ deletes st7 = deletes st5).
  { unfold directoryList. destruct (az_Enabled (Azure c)).
    - destruct (Haz eq_refl) as (Hpipes & Hstart & Hwait).
      rewrite bind_eq, writeInfo_eq.
      set (st6 := set_logFile _ st5).
      rewrite (listAzureComputers_exited env st6 Hpipes);
        try (unfold sessionOf; subst st6; simpl; rewrite Hc5; assumption).
      eexists. split; [reflexivity|].
      unfold sessionOf. subst st6. simpl. rewrite Hc5, Had5. tauto.
    - exists st5. split; [reflexivity|]. rewrite app_nil_r. tauto. }
  destruct Hcloud as (st7 & -> & Hc7 & Hdb7 & Had7 & Hrm7 & _).
  clear st5 Hc5 Hdb5 Had5 Hrm5.
  rewrite bind_eq, writeInfo_eq.
  set (st8 := set_logFile _ st7).
  destruct (findComputersToRemoveFromDB_opened env st8)
    as (st9 & Hrun9 & Hg9 & Hrm9 & _).
  { subst st8. simpl. now rewrite Hc7. }
  rewrite Hrun9. eexists _, st9. split; [reflexivity|].
  unfold candidates in Hrm9. subst st8. simpl in Hrm9.
  rewrite Hrm7, Hc7, Had7, Hdb7 in Hrm9. simpl in Hrm9.
  unfold sameGlobals in Hg9. simpl in Hg9.
  destruct Hg9 as (Hc9 & Hdb9 & Had9 & _).
  rewrite Hc9, Hdb9, Had9. tauto.
Qed.
End WholeRun.

(** * Further properties of the program *)

(** ** The cloud reader, by the answers of the PowerShell session *)

Section CloudCases.
Context {U : Unicode}.
Variable env : Env.

Lemma listAzureComputers_eq st :
  listAzureComputers env st
  = match cmd_StdinPipe env, cmd_StderrPipe env, cmd_StdoutPipe env with
    | None, None, None =>
        match start_err (sessionOf env st) with
        | Some err => writeError ("failed to connect to powershell: " ++ err) st
        | None =>
            match wait_err (sessionOf env st) with
            | Some err =>
                writeError ("failed to retrieve records from Azure: " ++ err
                            ++ LF ++ errtxt (sessionOf env st)) st
            | None =>
                let kept := reportLines (Split (out (sessionOf env st)) CR) true in
                writeInfo (Itoa (Nat.iter (length kept) incr 0%Z)
                           ++ " records retrieved from Azure")
                  (set_adComputers (adComputers st ++ map deviceName kept) st)
            end
        end
    | _, _, _ => (Aborted (Exit 1), st)
    end.
Proof.
  unfold listAzureComputers, sessionOf.
  destruct (cmd_StdinPipe env); [reflexivity|].
  destruct (cmd_StderrPipe env); [reflexivity|].
  destruct (cmd_StdoutPipe env); [reflexivity|].
  unfold bind at 1, get at 1.
  destruct (start_err _); [reflexivity|].
  destruct (wait_err _); [reflexivity|].
  unfold bind. now rewrite rangePsData_eq.
Qed.

Lemma listAzureComputers_keeps st :
  keeps st (snd (listAzureComputers env st))
  /\ dbComputers (snd (listAzureComputers env st)) = dbComputers st.
Proof.
  rewrite listAzureComputers_eq.
  destruct (cmd_StdinPipe env); [split; kept|].
  destruct (cmd_StderrPipe env); [split; kept|].
  destruct (cmd_StdoutPipe env); [split; kept|].
  destruct (start_err _); [rewrite writeError_eq; split; kept|].
  destruct (wait_err _); [rewrite writeError_eq; split; kept|].
  cbv zeta. rewrite writeInfo_eq. split; kept.
Qed.
End CloudCases.

(** ** The inventory reader, by the answers of the database *)

Section InventoryCases.
Context {U : Unicode}.
Variable env : Env.

Lemma scanRows_returned rows : forall st st',
  scanRows rows st = (Returned tt, st') ->
  exists names, rows = map ScanValue names.
Proof.
  induction rows as [|[n|err] rows IH]; intros st st'; simpl.
  - intros _. now exists [].
  - unfold bind, modify. intros H. destruct (IH _ _ H) as (names & ->).
    now exists (n :: names).
  - rewrite writeError_eq. discriminate.
Qed.

(** The reader returns only when [sql.Open] accepted the connection string,
    the query gave rows that could all be read, and [rows.Err] was nil. *)
Lemma listDBComputers_returned st st' :
  listDBComputers env st = (Returned tt, st') ->
  sql_Open env "mssql" (connString (config st)) = None
  /\ exists names,
       sql_Query env (connString (config st)) selectWorkstations
       = QueryRows (map ScanValue names) None.
Proof.
  unfold listDBComputers, bind, buildConnString, get, ret. simpl.
  destruct (sql_Open env "mssql" (connString (config st))).
  { rewrite writeError_eq. discriminate. }
  destruct (sql_Query env (connString (config st)) selectWorkstations)
    as [err|rows rowsErr].
  { rewrite writeError_eq. discriminate. }
  destruct (scanRows rows st) as [[[]|r] st1] eqn:Hscan; [|discriminate].
  destruct rowsErr; [rewrite writeError_eq; discriminate|].
  intros _. split; [reflexivity|].
  destruct (scanRows_returned rows st st1 Hscan) as (names & ->).
  now exists names.
Qed.
End InventoryCases.

(** The reconciliation leaves the configuration, the two lists and the
    loggers as they are, whatever the database answers. *)
Lemma findComputersToRemoveFromDB_sameGlobals env st :
  sameGlobals st (snd (findComputersToRemoveFromDB env st)).
Proof.
  rewrite findComputersToRemoveFromDB_eq.
  destruct (sql_Open env "mssql" (connString (config st))) as [err|] eqn:Hopen.
  - destruct (rangeDbComputers_refused env err (dbComputers st) 0%Z st Hopen)
      as (r & st' & -> & Hg & _).
    destruct r; frame.
  - destruct (rangeDbComputers_opened env (dbComputers st) 0%Z st Hopen)
      as (st' & -> & Hg & _).
    frame.
Qed.

(** A step guarded by a flag of the configuration, as [main] has two. *)
Lemma guarded_keeps (b : bool) msg (c : Go unit) st :
  (forall s, keeps s (snd (c s))) ->
  keeps st (snd ((if b then bind (writeInfo msg) (fun _ => c) else ret tt) st)).
Proof.
  intros Hc. destruct b; [|apply keeps_refl].
  rewrite bind_eq, writeInfo_eq.
  eapply keeps_trans; [|apply Hc]. kept.
Qed.

Lemma main_outcome (U : Unicode) (env : Env) :
  exists r st',
    main env initial = (r, st')
    /\ ((exists count, r = Returned count)
        \/ (exists e, r = Aborted e) /\ removeCalls st' = [] /\ deletes st' = []).
Proof.
  unfold main. destruct (viper_ReadInConfig env) as [err|].
  { eexists _, _. split; [reflexivity|]. right. repeat split. eexists; reflexivity. }
  destruct (viper_Unmarshal env) as [err|c].
  { eexists _, _. split; [reflexivity|]. right. repeat split. eexists; reflexivity. }
  rewrite bind_eq. unfold modify at 1.
  set (st0 := set_config c initial).
  assert (H0 : removeCalls st0 = [] /\ deletes st0 = [])
    by (subst st0; simpl; tauto).
  clearbody st0. rewrite bind_eq.
  destruct (openLog_cases env st0) as [(msg & ->)|(st1 & -> & H1)].
  { eexists _, _. split; [reflexivity|]. right.
    split; [eexists; reflexivity | exact H0]. }
  rewrite bind_eq, writeInfo_eq.
  set (st2 := set_logFile _ st1).
  assert (H2 : removeCalls st2 = [] /\ deletes st2 = [])
    by (subst st2; simpl; intuition congruence).
  clearbody st2. clear st0 H0 st1 H1. rewrite bind_eq.
  destruct (listDBComputers_keeps env st2) as [Hk3 _].
  destruct (listDBComputers env st2) as [[[]|e] st3] eqn:Hdb; simpl in Hk3.
  2:{ eexists _, _. split; [reflexivity|]. right.
      split; [eexists; reflexivity | kept]. }
  destruct (listDBComputers_returned env st2 st3 Hdb) as [Hopen _].
  assert (Hopen3 : sql_Open env "mssql" (connString (config st3)) = None)
    by (replace (config st3) with (config st2) by kept; exact Hopen).
  assert (H3 : removeCalls st3 = [] /\ deletes st3 = []) by kept.
  clear st2 H2 Hk3 Hdb Hopen.
  rewrite bind_eq. unfold get at 1. rewrite bind_eq.
  pose proof (guarded_keeps (ad_Enabled (ActiveDirectory (config st3)))
                "Loading the list of computers from Active Directory"
                (listADComputers env) st3
                (fun s => proj1 (listADComputers_keeps env s))) as Hk5.
  match type of Hk5 with keeps _ (snd ?t) => destruct t as [[[]|e] st5] end;
    simpl in Hk5.
  2:{ eexists _, _. split; [reflexivity|]. right.
      split; [eexists; reflexivity | kept]. }
  assert (Hopen5 : sql_Open env "mssql" (connString (config st5)) = None)
    by (replace (config st5) with (config st3) by kept; exact Hopen3).
  assert (H5 : removeCalls st5 = [] /\ deletes st5 = []) by kept.
  clear st3 H3 Hk5 Hopen3.
  rewrite bind_eq. unfold get at 1. rewrite bind_eq.
  pose proof (guarded_keeps (az_Enabled (Azure (config st5)))
                "Loading the list of computers from Azure"
                (listAzureComputers env) st5
                (fun s => proj1 (listAzureComputers_keeps env s))) as Hk7.
  match type of Hk7 with keeps _ (snd ?t) => destruct t as [[[]|e] st7] end;
    simpl in Hk7.
  2:{ eexists _, _. split; [reflexivity|]. right.
      split; [eexists; reflexivity | kept]. }
  assert (Hopen7 : sql_Open env "mssql" (connString (config st7)) = None)
    by (replace (config st7) with (config st5) by kept; exact Hopen5).
  rewrite bind_eq, writeInfo_eq.
  set (st8 := set_logFile _ st7).
  destruct (findComputersToRemoveFromDB_opened env st8) as (st9 & -> & _).
  { subst st8. simpl. exact Hopen7. }
  eexists _, _. split; [reflexivity|]. left. eexists. reflexivity.
Qed.

(** X1: a run of [main] either returns, or it stops with no name handed to
    [removeComputer] and no delete run: the connection string that the
    inventory reader opened is the one every removal opens, so that nothing
    can stop the run once the first removal is reached. *)
Theorem main_returns_or_removes_nothing (U : Unicode) (env : Env) :
  (exists count, fst (main env initial) = Returned count)
  \/ (exists e, fst (main env initial) = Aborted e)
     /\ removeCalls (snd (main env initial)) = []
     /\ deletes (snd (main env initial)) = [].
Proof.
  destruct (main_outcome U env) as (r & st' & -> & H). exact H.
Qed.

(** ** What a run that returns has done *)

Section Returned.
Context {U : Unicode}.
Variable env : Env.

Lemma listADComputers_returned st st' :
  listADComputers env st = (Returned tt, st') ->
  exists entries,
    searchOf env st = inr entries /\ entries <> []
    /\ snd (firstValues entries) = true
    /\ adComputers st'
       = (adComputers st ++ map ToUpper (fst (firstValues entries)))%list.
Proof.
  rewrite listADComputers_eq.
  destruct (dialOf env st); [rewrite writeError_eq; discriminate|].
  destruct (bindOf env st); [rewrite writeError_eq; discriminate|].
  destruct (searchOf env st) as [err|[|x entries]];
    [rewrite writeError_eq; discriminate..|].
  cbv zeta. destruct (snd (firstValues (x :: entries))) eqn:Hok; [|discriminate].
  rewrite writeInfo_eq. intros H. injection H as <-.
  exists (x :: entries). repeat split; [discriminate | exact Hok].
Qed.

Lemma listAzureComputers_returned st st' :
  listAzureComputers env st = (Returned tt, st') ->
  adComputers st'
  = (adComputers st
     ++ map deviceName (reportLines (Split (out (sessionOf env st)) CR) true))%list.
Proof.
  rewrite listAzureComputers_eq.
  destruct (cmd_StdinPipe env); [discriminate|].
  destruct (cmd_StderrPipe env); [discriminate|].
  destruct (cmd_StdoutPipe env); [discriminate|].
  destruct (start_err _); [rewrite writeError_eq; discriminate|].
  destruct (wait_err _); [rewrite writeError_eq; discriminate|].
  cbv zeta. rewrite writeInfo_eq. intros H. now injection H as <-.
Qed.

Lemma openLog_returned st st' :
  openLog env st = (Returned tt, st') ->
  config st' = config st /\ dbComputers st' = dbComputers st
  /\ adComputers st' = adComputers st /\ logFile st' = logFile st
  /\ removeCalls st' = removeCalls st /\ deletes st' = deletes st.
Proof.
  unfold openLog, bind, get.
  destruct (log_Enabled (Logging (config st))).
  - destruct (time_Now env) as [[year month] day].
    destruct (os_OpenFile env _ _) as [err|]; [discriminate|].
    intros H. injection H as <-. simpl. tauto.
  - intros H. injection H as <-. tauto.
Qed.

Lemma firstValues_In entries : forall x n,
  snd (firstValues entries) = true -> In x entries -> firstValue x = Some n ->
  In n (fst (firstValues entries)).
Proof.
  induction entries as [|y entries IH]; intros x n Hok Hin Hx; [destruct Hin|].
  simpl in *. destruct (firstValue y) as [v|] eqn:Hy; [|discriminate].
  destruct (firstValues entries) as [names ok]; simpl in *.
  destruct Hin as [->|Hin].
  - left. congruence.
  - right. eapply IH; eauto.
Qed.

(** The three lists and the removals of a run of [main] that returns. *)
Lemma main_returned count st' :
  main env initial = (Returned count, st') ->
  exists c rows,
    viper_Unmarshal env = inr c /\ config st' = c
    /\ sql_Query env (connString c) selectWorkstations
       = QueryRows (map ScanValue rows) None
    /\ dbComputers st' = map ToUpper rows
    /\ adComputers st' = (primaryList env c ++ cloudList env c)%list
    /\ (ad_Enabled (ActiveDirectory c) = true ->
        exists entries,
          ldap_Search env (ad_Dn (ActiveDirectory c))
            "(&(objectClass=computer))" ["cn"] = inr entries
          /\ entries <> [] /\ snd (firstValues entries) = true)
    /\ removeCalls st'
       = filter (candidate (adComputers st') (ExemptComputers (Database c)))
           (dbComputers st')
    /\ deletes st' = removeCalls st'.
Proof.
  unfold main. destruct (viper_ReadInConfig env) as [err|]; [discriminate|].
  destruct (viper_Unmarshal env) as [err|c]; [discriminate|].
  rewrite bind_eq. unfold modify at 1.
  set (st0 := set_config c initial). rewrite bind_eq.
  destruct (openLog env st0) as [[[]|e] st1] eqn:Hlog; [|discriminate].
  apply openLog_returned in Hlog. subst st0. simpl in Hlog.
  destruct Hlog as (Hc1 & Hdb1 & Had1 & _ & Hrm1 & Hdel1).
  rewrite bind_eq, writeInfo_eq.
  set (st2 := set_logFile _ st1). rewrite bind_eq.
  destruct (listDBComputers env st2) as [[[]|e] st3] eqn:Hdb; [|discriminate].
  destruct (listDBComputers_returned env st2 st3 Hdb) as (Hopen & rows & Hquery).
  destruct (listDBComputers_rows env st2 rows Hopen Hquery) as (st3' & Hrun & Hdb3).
  rewrite Hdb in Hrun. injection Hrun as <-.
  destruct (listDBComputers_keeps env st2) as [Hk3 Had3].
  rewrite Hdb in Hk3, Had3. simpl in Hk3, Had3.
  subst st2. simpl in Hopen, Hquery, Hdb3, Hk3, Had3.
  rewrite Hc1 in Hopen, Hquery. rewrite Hdb1 in Hdb3. simpl in Hdb3.
  assert (Hc3 : config st3 = c) by kept.
  assert (Hrm3 : removeCalls st3 = [] /\ deletes st3 = []) by kept.
  rewrite Had1 in Had3. clear Hdb Hk3 Hc1 Hdb1 Had1 Hrm1 Hdel1 st1.
  rewrite bind_eq. unfold get at 1. rewrite bind_eq, Hc3.
  set (primary := if ad_Enabled (ActiveDirectory c) then _ else _).
  destruct (primary st3) as [[[]|e] st5] eqn:Hprimary; [|discriminate].
  assert (H5 : keeps st3 st5 /\ dbComputers st5 = dbComputers st3
               /\ adComputers st5 = primaryList env c
               /\ (ad_Enabled (ActiveDirectory c) = true ->
                   exists entries,
                     ldap_Search env (ad_Dn (ActiveDirectory c))
                       "(&(objectClass=computer))" ["cn"] = inr entries
                     /\ entries <> [] /\ snd (firstValues entries) = true)).
  { subst primary. unfold primaryList.
    destruct (ad_Enabled (ActiveDirectory c)).
    - rewrite bind_eq, writeInfo_eq in Hprimary.
      set (st4 := set_logFile _ st3) in Hprimary.
      destruct (listADComputers_returned st4 st5 Hprimary)
        as (entries & Hsearch & Hne & Hok & Had5).
      destruct (listADComputers_keeps env st4) as [Hk5 Hdb5].
      rewrite Hprimary in Hk5, Hdb5. simpl in Hk5, Hdb5.
      unfold searchOf in Hsearch. subst st4. simpl in *.
      rewrite Hc3 in Hsearch. rewrite Hsearch, Had5, Had3.
      split; [kept|]. split; [assumption|]. split; [reflexivity|].
      intros _. exists entries. tauto.
    - injection Hprimary as <-.
      split; [apply keeps_refl|]. split; [reflexivity|]. split; [assumption|].
      discriminate. }
  destruct H5 as (Hk5 & Hdb5 & Had5 & Hentries).
  assert (Hc5 : config st5 = c) by kept.
  assert (Hrm5 : removeCalls st5 = [] /\ deletes st5 = []) by kept.
  rewrite Hdb3 in Hdb5. clear Hprimary primary Hk5 Hc3 Hrm3 Hdb3 Had3 st3.
  rewrite bind_eq. unfold get at 1. rewrite bind_eq, Hc5.
  set (cloud := if az_Enabled (Azure c) then _ else _).
  destruct (cloud st5) as [[[]|e] st7] eqn:Hcloud; [|discriminate].
  assert (H7 : keeps st5 st7 /\ dbComputers st7 = dbComputers st5
               /\ adComputers st7 = (adComputers st5 ++ cloudList env c)%list).
  { subst cloud. unfold cloudList.
    destruct (az_Enabled (Azure c)).
    - rewrite bind_eq, writeInfo_eq in Hcloud.
      set (st6 := set_logFile _ st5) in Hcloud.
      pose proof (listAzureComputers_returned st6 st7 Hcloud) as Had7.
      destruct (listAzureComputers_keeps env st6) as [Hk7 Hdb7].
      rewrite Hcloud in Hk7, Hdb7. simpl in Hk7, Hdb7.
      unfold sessionOf in Had7. subst st6. simpl in *.
      rewrite Hc5 in Had7. split; [kept|]. split; assumption.
    - injection Hcloud as <-. rewrite app_nil_r.
      split; [apply keeps_refl|]. split; reflexivity. }
  destruct H7 as (Hk7 & Hdb7 & Had7).
  assert (Hc7 : config st7 = c) by kept.
  assert (Hrm7 : removeCalls st7 = [] /\ deletes st7 = []) by kept.
  rewrite Hdb5 in Hdb7. rewrite Had5 in Had7.
  clear Hcloud cloud Hk7 Hc5 Hrm5 Hdb5 Had5 st5.
  rewrite bind_eq, writeInfo_eq.
  set (st8 := set_logFile _ st7).
  destruct (findComputersToRemoveFromDB_opened env st8)
    as (st9 & Hrun9 & Hg9 & Hrm9 & Hdel9).
  { subst st8. simpl. now rewrite Hc7. }
  rewrite Hrun9. intros H. injection H as _ <-.
  unfold candidates in Hrm9, Hdel9. subst st8. simpl in Hrm9, Hdel9.
  destruct Hrm7 as [Hrm7 Hdel7].
  rewrite Hrm7, Hc7, Had7, Hdb7 in Hrm9. rewrite Hdel7, Hc7, Had7, Hdb7 in Hdel9.
  simpl in Hrm9, Hdel9.
  unfold sameGlobals in Hg9. simpl in Hg9.
  destruct Hg9 as (Hc9 & Hdb9 & Had9 & _).
  exists c, rows. rewrite Hc9, Hdb9, Had9, Hc7, Hdb7, Had7.
  repeat split; try assumption; try reflexivity. congruence.
Qed.
End Returned.

(** ** Whole runs *)

(** X2: when no collaborator fails, [main] returns; the inventory list is
    the upper-cased rows of the table in their order, the directory list is
    the names of the primary directory followed by those of the cloud
    directory, each only when its source is enabled, and the names handed to
    [removeComputer] are the inventory entries found neither in the
    directory list nor in the configured exemptions. *)
Theorem run_without_failure_reconciles_all_sources
    (U : Unicode) (env : Env) (c : Configuration)
    (rows : list string) (entries : list Entry) (names : list string) :
  viper_ReadInConfig env = None ->
  viper_Unmarshal env = inr c ->
  (forall file, os_OpenFile env (log_Location (Logging c)) file = None) ->
  sql_Open env "mssql" (connString c) = None ->
  sql_Query env (connString c) selectWorkstations
  = QueryRows (map ScanValue rows) None ->
  (ad_Enabled (ActiveDirectory c) = true ->
   ldap_DialURL env ("ldap://" ++ ad_Host (ActiveDirectory c) ++ ":389") = None
   /\ ldap_Bind env (ad_Domain (ActiveDirectory c) ++ "\"
                     ++ ad_Username (ActiveDirectory c))
        (ad_Password (ActiveDirectory c)) = None
   /\ ldap_Search env (ad_Dn (ActiveDirectory c)) "(&(objectClass=computer))"
        ["cn"] = inr entries
   /\ entries <> []
   /\ map firstValue entries = map Some names) ->
  (az_Enabled (Azure c) = true ->
   pipesOpen env
   /\ start_err (powershell env (script c)) = None
   /\ wait_err (powershell env (script c)) = None) ->
  exists count st',
    main env initial = (Returned count, st')
    /\ config st' = c
    /\ dbComputers st' = map ToUpper rows
    /\ adComputers st' = directoryList env c names
    /\ removeCalls st'
       = filter (candidate (directoryList env c names)
                   (ExemptComputers (Database c)))
           (map ToUpper rows).
Proof. apply main_completes. Qed.

Lemma run_without_failure_reconciles_all_sources_witness :
  let c := sampleConfig true true ["KIOSK"] in
  let env := sampleEnv c ["alpha"; "beta"; "kiosk"; "device1"; "gamma"]
               [computer "Alpha"] reportCRLF deleteFinds in
  exists count st',
    @main asciiOnly env initial = (Returned count, st')
    /\ adComputers st' = ["ALPHA"; "DEVICE1"; "DEVICE2"]
    /\ removeCalls st' = ["BETA"; "GAMMA"].
Proof.
  intros c env.
  destruct (run_without_failure_reconciles_all_sources asciiOnly env c
              ["alpha"; "beta"; "kiosk"; "device1"; "gamma"]
              [computer "Alpha"] ["Alpha"])
    as (count & st' & Hrun & _ & _ & Had & Hrm); try reflexivity.
  - intros _. repeat split. discriminate.
  - intros _. repeat split.
  - exists count, st'. split; [exact Hrun|]. split; [exact Had | exact Hrm].
Defined.

(** X3: with both directory sources disabled the directory list stays
    empty, and every row of the table whose upper-cased name is not among
    the configured exemptions is handed to [removeComputer]. *)
Theorem disabled_directories_remove_every_row_not_exempt
    (U : Unicode) (env : Env) (c : Configuration) (rows : list string) :
  viper_ReadInConfig env = None ->
  viper_Unmarshal env = inr c ->
  (forall file, os_OpenFile env (log_Location (Logging c)) file = None) ->
  sql_Open env "mssql" (connString c) = None ->
  sql_Query env (connString c) selectWorkstations
  = QueryRows (map ScanValue rows) None ->
  ad_Enabled (ActiveDirectory c) = false ->
  az_Enabled (Azure c) = false ->
  exists count st',
    main env initial = (Returned count, st')
    /\ adComputers st' = []
    /\ removeCalls st'
       = filter (fun x => negb (exempted (ExemptComputers (Database c)) x))
           (map ToUpper rows).
Proof.
  intros Hread Hunm Hfile Hopen Hquery Had Haz.
  destruct (main_completes env c rows [] [] Hread Hunm Hfile Hopen Hquery)
    as (count & st' & Hrun & _ & _ & Hdir & Hrm);
    [rewrite Had; discriminate | rewrite Haz; discriminate |].
  unfold directoryList in Hdir, Hrm. rewrite Had, Haz in Hdir, Hrm.
  exists count, st'. split; [exact Hrun|]. split; [exact Hdir|].
  rewrite Hrm. apply filter_ext. intros x. reflexivity.
Qed.

Lemma disabled_directories_remove_every_row_not_exempt_witness :
  let c := sampleConfig false false ["KIOSK"] in
  let env := sampleEnv c ["alpha"; "kiosk"; "beta"] [computer "ALPHA"] ""
               deleteFinds in
  exists count st',
    @main asciiOnly env initial = (Returned count, st')
    /\ adComputers st' = []
    /\ removeCalls st' = ["ALPHA"; "BETA"].
Proof.
  intros c env.
  apply (disabled_directories_remove_every_row_not_exempt asciiOnly env c
           ["alpha"; "kiosk"; "beta"]); reflexivity.
Defined.

(** X4: whatever the collaborators answer, a run of [main] hands to
    [removeComputer] only upper-cased names of table rows, and never an
    identifier that is written in the exemption list, nor the upper-cased
    name of an entry that the search of the enabled primary directory
    returned, nor the device name of a segment that the enabled cloud reader
    keeps from the report. *)
Theorem protected_identifier_is_never_removed
    (U : Unicode) (env : Env) (c : Configuration) :
  viper_Unmarshal env = inr c ->
  let removed := removeCalls (snd (main env initial)) in
  (forall x, In x removed ->
     exists rows rowsErr row,
       sql_Query env (connString c) selectWorkstations = QueryRows rows rowsErr
       /\ In (ScanValue row) rows /\ x = ToUpper row)
  /\ (forall x, In x (ExemptComputers (Database c)) -> ~ In x removed)
  /\ (ad_Enabled (ActiveDirectory c) = true ->
      forall entries e n,
        ldap_Search env (ad_Dn (ActiveDirectory c))
          "(&(objectClass=computer))" ["cn"] = inr entries ->
        In e entries -> firstValue e = Some n ->
        ~ In (ToUpper n) removed)
  /\ (az_Enabled (Azure c) = true ->
      forall segment,
        In segment
          (reportLines (Split (out (powershell env (script c))) CR) true) ->
        ~ In (ToUpper (TrimSpace segment)) removed).
Proof.
  intros Hunm removed. subst removed.
  destruct (main_outcome U env) as (r & st' & Hrun & [(count & ->)|(_ & Hrm & _)]).
  2:{ rewrite Hrun. simpl. rewrite Hrm.
      split; [intros x []|]. split; [intros x _ []|].
      split; [intros _ entries e n _ _ _ [] | intros _ segment _ []]. }
  destruct (main_returned env count st' Hrun)
    as (c' & rows & Hunm' & Hc & Hquery & Hdb & Had & Hentries & Hrm & _).
  assert (Hcc : c' = c) by congruence.
  rewrite Hcc in Hc, Hquery, Had, Hentries, Hrm. clear Hcc Hunm' c'.
  rewrite Hrun. simpl. rewrite Hrm, Hdb, Had.
  split; [|split; [|split]].
  - intros x Hx. apply filter_In in Hx as [Hx _].
    apply in_map_iff in Hx as (row & <- & Hrow).
    exists (map ScanValue rows), None, row.
    split; [exact Hquery|]. split; [now apply in_map | reflexivity].
  - intros x Hex Hx. apply filter_In in Hx as [_ Hx].
    apply candidate_spec in Hx. tauto.
  - intros Hen entries e n Hsearch He Hn Hx.
    apply filter_In in Hx as [_ Hx]. apply candidate_spec in Hx as [Hx _].
    apply Hx, in_or_app. left.
    destruct (Hentries Hen) as (entries' & Hsearch' & _ & Hok).
    assert (entries' = entries) by congruence. subst entries'.
    unfold primaryList. rewrite Hen, Hsearch.
    apply in_map. eapply firstValues_In; eauto.
  - intros Hen segment Hseg Hx.
    apply filter_In in Hx as [_ Hx]. apply candidate_spec in Hx as [Hx _].
    apply Hx, in_or_app. right.
    unfold cloudList. rewrite Hen.
    change (ToUpper (TrimSpace segment)) with (deviceName segment).
    now apply in_map.
Qed.

Lemma protected_identifier_is_never_removed_witness :
  let c := sampleConfig true true ["KIOSK"] in
  let env := sampleEnv c ["alpha"; "beta"; "kiosk"; "device1"; "gamma"]
               [computer "Alpha"] reportCRLF deleteFinds in
  let removed := removeCalls (snd (@main asciiOnly env initial)) in
  ~ In "KIOSK" removed /\ ~ In "ALPHA" removed /\ ~ In "DEVICE1" removed.
Proof.
  intros c env removed.
  destruct (protected_identifier_is_never_removed asciiOnly env c eq_refl)
    as (_ & Hex & Hprimary & Hcloud).
  split; [|split].
  - apply Hex. now left.
  - apply (Hprimary eq_refl [computer "Alpha"] (computer "Alpha") "Alpha");
      [reflexivity | now left | reflexivity].
  - apply (Hcloud eq_refl (LF ++ "DEVICE1")). now left.
Defined.

(** ** Edge cases of the reconciliation *)

Section Edges.
Variable env : Env.

Lemma rangeDbComputers_no_candidate db : forall count st,
  candidates st db = [] ->
  rangeDbComputers env db count st
  = (Returned count,
     set_logFile
       (logFile st ++
          (if infoLogger st then map skipLine (absent (adComputers st) db) else []))
       st).
Proof.
  unfold candidates, absent.
  induction db as [|x db IH]; intros count st Hnone.
  - simpl. unfold ret. destruct (infoLogger st);
      now rewrite app_nil_r, set_logFile_same.
  - rewrite rangeDbComputers_cons. cbn [filter] in *.
    set (E := ExemptComputers (Database (config st))) in *.
    assert (Hcx : candidate (adComputers st) E x
                  = negb (inDirectory (adComputers st) x) && negb (exempted E x))
      by reflexivity.
    rewrite Hcx in Hnone.
    destruct (inDirectory (adComputers st) x) eqn:Hdir; cbn [negb andb] in *.
    + now apply IH.
    + rewrite inExempt_eq.
      destruct (exempted E x) eqn:Hex; cbn [negb andb] in *; [|discriminate].
      rewrite IH by exact Hnone. unfold set_logFile. simpl.
      destruct (infoLogger st); simpl;
        rewrite ?app_nil_r, <- ?app_assoc; reflexivity.
Qed.

(** When [sql.Open] refuses the connection string, the loop returns if
    there is no candidate and panics at the first candidate otherwise. *)
Lemma rangeDbComputers_refused_outcome err db : forall count st,
  sql_Open env "mssql" (connString (config st)) = Some err ->
  fst (rangeDbComputers env db count st)
  = match candidates st db with
    | [] => Returned count
    | _ :: _ => Aborted (Panic ("database connection failed: " ++ err))
    end.
Proof.
  unfold candidates.
  induction db as [|x db IH]; intros count st Hopen; [reflexivity|].
  rewrite rangeDbComputers_cons. cbn [filter].
  set (E := ExemptComputers (Database (config st))).
  assert (Hcx : candidate (adComputers st) E x
                = negb (inDirectory (adComputers st) x) && negb (exempted E x))
    by reflexivity.
  rewrite Hcx.
  destruct (inDirectory (adComputers st) x) eqn:Hdir; cbn [negb andb].
  - now apply IH.
  - rewrite inExempt_eq.
    destruct (exempted E x) eqn:Hex; cbn [negb andb].
    + now rewrite IH.
    + set (st1 := set_logFile _ st).
      destruct (removeComputer_refused env x st1 err Hopen) as (st2 & -> & _).
      reflexivity.
Qed.
End Edges.

(** X5: when every inventory entry is in the directory list or in the
    exemption list, [findComputersToRemoveFromDB] returns 0 without calling
    [removeComputer] and without opening the database, so also when the
    database cannot be opened; the log receives one line for each entry that
    is exempt and not in the directory, in inventory order, and the summary
    line. *)
Theorem nothing_to_remove_leaves_the_table_alone (env : Env) (st : State) :
  (forall x, In x (dbComputers st) ->
     In x (adComputers st) \/ In x (ExemptComputers (Database (config st)))) ->
  exists st',
    findComputersToRemoveFromDB env st = (Returned 0%Z, st')
    /\ removeCalls st' = removeCalls st /\ deletes st' = deletes st
    /\ logFile st'
       = (logFile st ++
          (if infoLogger st
           then map skipLine (absent (adComputers st) (dbComputers st))
                ++ [INFO "0 computers removed from database"]
           else []))%list.
Proof.
  intros Hall.
  assert (Hnone : candidates st (dbComputers st) = []).
  { unfold candidates.
    destruct (filter _ (dbComputers st)) as [|x l] eqn:Hf; [reflexivity|].
    assert (Hx : In x (filter (candidate (adComputers st)
                                 (ExemptComputers (Database (config st))))
                         (dbComputers st)))
      by (rewrite Hf; now left).
    apply candidates_spec in Hx. destruct (Hall x); tauto. }
  rewrite findComputersToRemoveFromDB_eq, rangeDbComputers_no_candidate by exact Hnone.
  eexists. split; [reflexivity|]. simpl.
  split; [reflexivity|]. split; [reflexivity|].
  destruct (infoLogger st); simpl; [|now rewrite !app_nil_r].
  now rewrite <- app_assoc.
Qed.

Lemma nothing_to_remove_leaves_the_table_alone_witness :
  let c := sampleConfig true false ["GAMMA"; "ALPHA"] in
  let env := sampleEnv c [] [] "" deleteFinds in
  exists st',
    findComputersToRemoveFromDB env (loaded c ["ALPHA"; "BETA"; "GAMMA"] ["ALPHA"; "BETA"])
    = (Returned 0%Z, st')
    /\ removeCalls st' = []
    /\ logFile st' = [INFO "Skipping GAMMA, exempt from removal";
                      INFO "0 computers removed from database"].
Proof.
  intros c env.
  destruct (nothing_to_remove_leaves_the_table_alone env
              (loaded c ["ALPHA"; "BETA"; "GAMMA"] ["ALPHA"; "BETA"]))
    as (st' & Hrun & Hrm & _ & Hlog).
  - simpl. intuition (subst; simpl; tauto).
  - exists st'. split; [exact Hrun|]. split; [exact Hrm | exact Hlog].
Defined.

(** X6: when [sql.Open] refuses the connection string and some inventory
    entry is a candidate, [findComputersToRemoveFromDB] panics with the
    message of the failed connection at the first candidate: that name is
    the only one handed to [removeComputer], and no delete is run. *)
Theorem refused_connection_stops_at_the_first_candidate
    (env : Env) (st : State) (err : error) (x : string) (rest : list string) :
  sql_Open env "mssql" (connString (config st)) = Some err ->
  candidates st (dbComputers st) = x :: rest ->
  exists st',
    findComputersToRemoveFromDB env st
    = (Aborted (Panic ("database connection failed: " ++ err)), st')
    /\ removeCalls st' = (removeCalls st ++ [x])%list
    /\ deletes st' = deletes st.
Proof.
  intros Hopen Hcands.
  pose proof (rangeDbComputers_refused_outcome env err (dbComputers st) 0%Z st Hopen)
    as Hout.
  destruct (rangeDbComputers_refused env err (dbComputers st) 0%Z st Hopen)
    as (r & st' & Hrun & _ & Hrm & Hdel).
  rewrite findComputersToRemoveFromDB_eq, Hrun.
  rewrite Hrun, Hcands in Hout. simpl in Hout. subst r.
  rewrite Hcands in Hrm. exists st'. repeat split; assumption.
Qed.

Lemma refused_connection_stops_at_the_first_candidate_witness :
  let c := sampleConfig true false [] in
  let env := {| viper_ReadInConfig := None; viper_Unmarshal := inr c;
                time_Now := (2024, 3, 9)%Z; os_OpenFile := fun _ _ => None;
                sql_Open := fun _ _ => Some "login failed";
                sql_Query := fun _ _ => QueryError "closed";
                sql_Exec := fun _ _ _ _ => ExecDone 1;
                ldap_DialURL := fun _ => None; ldap_Bind := fun _ _ => None;
                ldap_Search := fun _ _ _ => inr [];
                cmd_StdinPipe := None; cmd_StderrPipe := None;
                cmd_StdoutPipe := None;
                powershell := fun _ => {| start_err := None; out := "";
                                          errtxt := ""; wait_err := None |} |} in
  exists st',
    findComputersToRemoveFromDB env (loaded c ["ALPHA"; "BETA"; "GAMMA"] ["ALPHA"])
    = (Aborted (Panic "database connection failed: login failed"), st')
    /\ removeCalls st' = ["BETA"] /\ deletes st' = [].
Proof.
  intros c env.
  apply (refused_connection_stops_at_the_first_candidate env
           (loaded c ["ALPHA"; "BETA"; "GAMMA"] ["ALPHA"])
           "login failed" "BETA" ["GAMMA"]); reflexivity.
Defined.

(** X7: [findComputersToRemoveFromDB] leaves the configuration, the
    inventory list and the directory list as they were, also for the entries
    it removed from the table; when it returns, one delete has been run for
    each name handed to [removeComputer], in the same order, and the count
    is at least 0 and at most the number of those names, which is at most
    the length of the inventory. *)
Theorem reconciliation_keeps_the_lists_and_bounds_the_count
    (env : Env) (st : State) :
  sameGlobals st (snd (findComputersToRemoveFromDB env st))
  /\ forall count st',
       findComputersToRemoveFromDB env st = (Returned count, st') ->
       (len (dbComputers st) < 2 ^ 63)%Z ->
       exists passed,
         removeCalls st' = (removeCalls st ++ passed)%list
         /\ deletes st' = (deletes st ++ passed)%list
         /\ (0 <= count <= len passed)%Z
         /\ (len passed <= len (dbComputers st))%Z.
Proof.
  split; [apply findComputersToRemoveFromDB_sameGlobals|].
  intros count st' Hrun Hlen.
  pose proof (candidates_length st (dbComputers st)) as Hle.
  destruct (sql_Open env "mssql" (connString (config st))) as [err|] eqn:Hopen.
  - pose proof (rangeDbComputers_refused_outcome env err (dbComputers st) 0%Z st Hopen)
      as Hout.
    rewrite findComputersToRemoveFromDB_eq in Hrun.
    destruct (candidates st (dbComputers st)) as [|x rest] eqn:Hcands.
    + rewrite rangeDbComputers_no_candidate in Hrun by exact Hcands.
      injection Hrun as <- <-. exists []. simpl. rewrite !app_nil_r.
      unfold len in *. simpl. repeat split; lia.
    + destruct (rangeDbComputers env (dbComputers st) 0%Z st) as [r st1].
      simpl in Hout. subst r. discriminate.
  - destruct (findComputersToRemoveFromDB_opened env st Hopen)
      as (st1 & Hrun1 & _ & Hrm & Hdel).
    rewrite Hrun in Hrun1. injection Hrun1 as -> <-.
    exists (candidates st (dbComputers st)).
    pose proof (answered_le env (connString (config st))
                  (candidates st (dbComputers st)) (deletes st)) as Hans.
    split; [exact Hrm|]. split; [exact Hdel|].
    rewrite iter_incr by (unfold len in Hlen; lia).
    unfold len in *. lia.
Qed.

Lemma reconciliation_keeps_the_lists_and_bounds_the_count_witness :
  let c := sampleConfig true false [] in
  let env := sampleEnv c [] [] "" (deleteFailsOn "BETA") in
  let st := loaded c ["ALPHA"; "BETA"; "GAMMA"] ["ALPHA"] in
  exists passed,
    removeCalls (snd (findComputersToRemoveFromDB env st)) = passed
    /\ deletes (snd (findComputersToRemoveFromDB env st)) = passed
    /\ dbComputers (snd (findComputersToRemoveFromDB env st)) = dbComputers st.
Proof.
  intros c env st.
  destruct (reconciliation_keeps_the_lists_and_bounds_the_count env st)
    as (Hsame & Hret).
  destruct (Hret 1%Z (snd (findComputersToRemoveFromDB env st)))
    as (passed & Hrm & Hdel & _); [reflexivity | reflexivity |].
  exists passed. split; [exact Hrm|]. split; [exact Hdel|].
  apply Hsame.
Defined.

(** ** The log *)

Lemma appendsLog_refl st : appendsLog st st.
Proof.
  unfold appendsLog. split; [exists []; now rewrite app_nil_r | tauto].
Qed.

Lemma appendsLog_trans st1 st2 st3 :
  appendsLog st1 st2 -> appendsLog st2 st3 -> appendsLog st1 st3.
Proof.
  unfold appendsLog, silent.
  intros ((l1 & H1) & Hs1 & Hi1 & He1) ((l2 & H2) & Hs2 & Hi2 & He2).
  split; [exists (l1 ++ l2)%list; now rewrite H2, H1, app_assoc|].
  split; [|split; congruence].
  intros Hs. rewrite Hs2, Hs1; [reflexivity | exact Hs |].
  destruct Hs. split; congruence.
Qed.

Lemma appendsLog_writeInfo msg st : appendsLog st (snd (writeInfo msg st)).
Proof.
  rewrite writeInfo_eq. unfold appendsLog, silent. simpl.
  split; [eexists; reflexivity|]. split; [|tauto].
  intros [-> _]. now rewrite app_nil_r.
Qed.

Lemma appendsLog_writeError {A} err st : appendsLog st (snd (@writeError A err st)).
Proof.
  rewrite writeError_eq. unfold appendsLog, silent. simpl.
  split; [eexists; reflexivity|]. split; [|tauto].
  intros [_ ->]. now rewrite app_nil_r.
Qed.

(** A change of the state that touches neither the log nor the loggers. *)
Lemma appendsLog_frame st st' :
  logFile st' = logFile st -> infoLogger st' = infoLogger st ->
  errorLogger st' = errorLogger st -> appendsLog st st'.
Proof.
  intros Hl Hi He. unfold appendsLog.
  split; [exists []; now rewrite app_nil_r | tauto].
Qed.

Lemma appendsLog_bind {A B} (c : Go A) (k : A -> Go B) st :
  (forall s, appendsLog s (snd (c s))) ->
  (forall a s, appendsLog s (snd (k a s))) ->
  appendsLog st (snd (bind c k st)).
Proof.
  intros Hc Hk. rewrite bind_eq. specialize (Hc st).
  destruct (c st) as [[a|e] st1]; simpl in Hc; [|exact Hc].
  eapply appendsLog_trans; [exact Hc | apply Hk].
Qed.

Section Log.
Context {U : Unicode}.
Variable env : Env.

Lemma appendsLog_scanRows rows : forall st, appendsLog st (snd (scanRows rows st)).
Proof.
  induction rows as [|[n|err] rows IH]; intros st; simpl.
  - apply appendsLog_refl.
  - apply appendsLog_bind; [|intros _; exact IH].
    intros s. now apply appendsLog_frame.
  - apply appendsLog_writeError.
Qed.

Lemma appendsLog_listDBComputers st : appendsLog st (snd (listDBComputers env st)).
Proof.
  unfold listDBComputers. apply appendsLog_bind.
  { intros s. apply appendsLog_refl. }
  intros dsn s. destruct (sql_Open env "mssql" dsn); [apply appendsLog_writeError|].
  destruct (sql_Query env dsn selectWorkstations) as [err|rows rowsErr];
    [apply appendsLog_writeError|].
  apply appendsLog_bind; [apply appendsLog_scanRows|].
  intros _ s'. destruct rowsErr; [apply appendsLog_writeError|].
  apply appendsLog_bind; [intros s''; apply appendsLog_refl|].
  intros st'' s''. apply appendsLog_writeInfo.
Qed.

Lemma appendsLog_listADComputers st : appendsLog st (snd (listADComputers env st)).
Proof.
  rewrite listADComputers_eq.
  destruct (dialOf env st); [apply appendsLog_writeError|].
  destruct (bindOf env st); [apply appendsLog_writeError|].
  destruct (searchOf env st) as [err|[|x entries]];
    [apply appendsLog_writeError..|].
  cbv zeta. destruct (snd (firstValues (x :: entries))).
  - eapply appendsLog_trans; [|apply appendsLog_writeInfo].
    now apply appendsLog_frame.
  - now apply appendsLog_frame.
Qed.

Lemma appendsLog_listAzureComputers st :
  appendsLog st (snd (listAzureComputers env st)).
Proof.
  rewrite listAzureComputers_eq.
  destruct (cmd_StdinPipe env); [apply appendsLog_refl|].
  destruct (cmd_StderrPipe env); [apply appendsLog_refl|].
  destruct (cmd_StdoutPipe env); [apply appendsLog_refl|].
  destruct (start_err _); [apply appendsLog_writeError|].
  destruct (wait_err _); [apply appendsLog_writeError|].
  cbv zeta. eapply appendsLog_trans; [|apply appendsLog_writeInfo].
  now apply appendsLog_frame.
Qed.
End Log.

Lemma appendsLog_removeComputer env name st :
  appendsLog st (snd (removeComputer env name st)).
Proof.
  unfold removeComputer. apply appendsLog_bind.
  { intros s. now apply appendsLog_frame. }
  intros _ s. apply appendsLog_bind; [intros s'; apply appendsLog_refl|].
  intros dsn s'. destruct (sql_Open env "mssql" dsn); [apply appendsLog_writeError|].
  apply appendsLog_bind; [intros s''; apply appendsLog_refl|].
  intros st0 s''. apply appendsLog_bind.
  { intros s3. now apply appendsLog_frame. }
  intros _ s3. destruct (sql_Exec env (deletes st0) dsn deleteWorkstation name);
    (apply appendsLog_bind; [apply appendsLog_writeInfo|]);
    intros _ s4; apply appendsLog_refl.
Qed.

Lemma appendsLog_inExempt exempt x : forall st,
  appendsLog st (snd (inExempt exempt x st)).
Proof.
  intros st. rewrite inExempt_eq. simpl.
  destruct (exempted exempt x && infoLogger st) eqn:Hb.
  - apply andb_true_iff in Hb as [_ Hi].
    unfold appendsLog, silent. simpl.
    split; [eexists; reflexivity|]. split; [|tauto].
    intros [Hi' _]. congruence.
  - rewrite app_nil_r, set_logFile_same. apply appendsLog_refl.
Qed.

Lemma appendsLog_rangeDbComputers env db : forall count st,
  appendsLog st (snd (rangeDbComputers env db count st)).
Proof.
  induction db as [|x db IH]; intros count st.
  - apply appendsLog_refl.
  - rewrite rangeDbComputers_cons.
    destruct (inDirectory (adComputers st) x); [apply IH|].
    pose proof (appendsLog_inExempt (ExemptComputers (Database (config st))) x st)
      as H1.
    destruct (inExempt _ x st) as [[[|]|e] st1]; simpl in H1.
    + eapply appendsLog_trans; [exact H1 | apply IH].
    + pose proof (appendsLog_removeComputer env x st1) as H2.
      destruct (removeComputer env x st1) as [[removed|e] st2]; simpl in H2.
      * eapply appendsLog_trans; [exact H1|].
        eapply appendsLog_trans; [exact H2 | apply IH].
      * eapply appendsLog_trans; [exact H1 | exact H2].
    + exact H1.
Qed.

Lemma appendsLog_findComputersToRemoveFromDB env st :
  appendsLog st (snd (findComputersToRemoveFromDB env st)).
Proof.
  unfold findComputersToRemoveFromDB.
  apply appendsLog_bind; [intros s; apply appendsLog_refl|].
  intros st0 s. apply appendsLog_bind; [apply appendsLog_rangeDbComputers|].
  intros count s'. apply appendsLog_bind; [apply appendsLog_writeInfo|].
  intros _ s''. apply appendsLog_refl.
Qed.

(** X8: the three readers, [removeComputer] and
    [findComputersToRemoveFromDB] only add lines at the end of the log and
    leave the loggers as they are; when no logger is set they leave the log
    as it is, whether they return or stop. *)
Theorem log_is_only_appended_to (U : Unicode) (env : Env) (st : State) :
  appendsLog st (snd (listDBComputers env st))
  /\ appendsLog st (snd (listADComputers env st))
  /\ appendsLog st (snd (listAzureComputers env st))
  /\ (forall name, appendsLog st (snd (removeComputer env name st)))
  /\ appendsLog st (snd (findComputersToRemoveFromDB env st)).
Proof.
  split; [apply appendsLog_listDBComputers|].
  split; [apply appendsLog_listADComputers|].
  split; [apply appendsLog_listAzureComputers|].
  split; [intros name; apply appendsLog_removeComputer|].
  apply appendsLog_findComputersToRemoveFromDB.
Qed.

(** X9: a run of [main] whose configuration does not enable logging writes
    no line to the log, whatever happens in the run. *)
Theorem run_without_logging_writes_no_line (U : Unicode) (env : Env) :
  (forall c, viper_Unmarshal env = inr c -> log_Enabled (Logging c) = false) ->
  logFile (snd (main env initial)) = [].
Proof.
  intros Hoff. unfold main.
  destruct (viper_ReadInConfig env); [reflexivity|].
  destruct (viper_Unmarshal env) as [err|c] eqn:Hunm; [reflexivity|].
  specialize (Hoff c eq_refl).
  rewrite bind_eq. unfold modify at 1.
  set (st0 := set_config c initial).
  rewrite bind_eq.
  assert (Hlog : openLog env st0 = (Returned tt, st0)).
  { unfold openLog, bind, get. subst st0. simpl. now rewrite Hoff. }
  rewrite Hlog.
  match goal with
  | |- logFile (snd (?tail st0)) = [] =>
      assert (Htail : forall s, appendsLog s (snd (tail s)))
  end.
  { intros s. apply appendsLog_bind; [apply appendsLog_writeInfo|]. intros _ s1.
    apply appendsLog_bind; [apply appendsLog_listDBComputers|]. intros _ s2.
    apply appendsLog_bind; [intros s'; apply appendsLog_refl|]. intros st2 s3.
    apply appendsLog_bind.
    { intros s'. destruct (ad_Enabled _); [|apply appendsLog_refl].
      apply appendsLog_bind; [apply appendsLog_writeInfo|].
      intros _ s''. apply appendsLog_listADComputers. }
    intros _ s4.
    apply appendsLog_bind; [intros s'; apply appendsLog_refl|]. intros st4 s5.
    apply appendsLog_bind.
    { intros s'. destruct (az_Enabled _); [|apply appendsLog_refl].
      apply appendsLog_bind; [apply appendsLog_writeInfo|].
      intros _ s''. apply appendsLog_listAzureComputers. }
    intros _ s6.
    apply appendsLog_bind; [apply appendsLog_writeInfo|]. intros _ s7.
    apply appendsLog_findComputersToRemoveFromDB. }
  destruct (Htail st0) as (_ & Hsilent & _).
  rewrite Hsilent; [reflexivity|]. subst st0. split; reflexivity.
Qed.

Lemma run_without_logging_writes_no_line_witness :
  let c := {| ActiveDirectory := ActiveDirectory (sampleConfig true false []);
              Azure := Azure (sampleConfig true false []);
              Logging := {| log_Enabled := false; log_Location := "." |};
              Database := Database (sampleConfig true false []) |} in
  let env := sampleEnv c ["alpha"; "beta"] [computer "ALPHA"] "" (deleteFailsOn "BETA") in
  logFile (snd (@main asciiOnly env initial)) = []
  /\ removeCalls (snd (@main asciiOnly env initial)) = ["BETA"].
Proof.
  intros c env. split; [|reflexivity].
  apply (run_without_logging_writes_no_line asciiOnly env).
  intros c' H. injection H as <-. reflexivity.
Defined.

(** ** Failures of the readers *)

Section ReaderFailures.
Context {U : Unicode}.
Variable env : Env.

Lemma writeError_panicked {A} msg st : @writeError A msg st = panicked msg st.
Proof. apply writeError_eq. Qed.

Lemma scanRows_error names err rest : forall st,
  scanRows (map ScanValue names ++ ScanError err :: rest) st
  = panicked ("error reading record from database: " ++ err)
      (set_dbComputers (dbComputers st ++ map ToUpper names) st).
Proof.
  induction names as [|n names IH]; intros st; simpl.
  - rewrite writeError_panicked. now rewrite app_nil_r, set_dbComputers_same.
  - unfold bind, modify. rewrite IH. simpl. now rewrite <- app_assoc.
Qed.

Lemma firstValues_fault_at good bad rest names :
  map firstValue good = map Some names -> lacksValue bad ->
  firstValues (good ++ bad :: rest) = (names, false).
Proof.
  revert names. induction good as [|x good IH]; intros [|n names] Hgood Hbad;
    simpl in *; try discriminate.
  - apply firstValue_None in Hbad. now rewrite Hbad.
  - injection Hgood as Hx Hgood. rewrite Hx, (IH names Hgood Hbad). reflexivity.
Qed.
End ReaderFailures.

(** X10: the failures of the inventory reader.  A refused connection and a
    failed query panic with their message and leave the inventory list as it
    was; a row that cannot be read panics after the names of the rows before
    it have been appended; an error reported after the last row panics after
    all names have been appended.  Each message goes to the error log when
    the logger is set. *)
Theorem inventory_reader_failures (U : Unicode) (env : Env) (st : State) :
  let dsn := connString (config st) in
  (forall err,
     sql_Open env "mssql" dsn = Some err ->
     listDBComputers env st = panicked ("database connection failed: " ++ err) st)
  /\ (sql_Open env "mssql" dsn = None ->
      (forall err,
         sql_Query env dsn selectWorkstations = QueryError err ->
         listDBComputers env st
         = panicked ("failed to load workstations: " ++ err) st)
      /\ (forall names err rest rowsErr,
            sql_Query env dsn selectWorkstations
            = QueryRows (map ScanValue names ++ ScanError err :: rest)%list rowsErr ->
            listDBComputers env st
            = panicked ("error reading record from database: " ++ err)
                (set_dbComputers (dbComputers st ++ map ToUpper names) st))
      /\ (forall names err,
            sql_Query env dsn selectWorkstations
            = QueryRows (map ScanValue names) (Some err) ->
            listDBComputers env st
            = panicked ("error reading from database: " ++ err)
                (set_dbComputers (dbComputers st ++ map ToUpper names) st))).
Proof.
  intros dsn. subst dsn. split; [|intros Hopen; split; [|split]].
  - intros err Hopen.
    unfold listDBComputers, bind, buildConnString, get, ret. simpl.
    rewrite Hopen. apply writeError_panicked.
  - intros err Hquery.
    unfold listDBComputers, bind, buildConnString, get, ret. simpl.
    rewrite Hopen, Hquery. apply writeError_panicked.
  - intros names err rest rowsErr Hquery.
    unfold listDBComputers, bind, buildConnString, get, ret. simpl.
    rewrite Hopen, Hquery, scanRows_error. reflexivity.
  - intros names err Hquery.
    unfold listDBComputers, bind, buildConnString, get, ret. simpl.
    rewrite Hopen, Hquery, scanRows_values. apply writeError_panicked.
Qed.

Lemma inventory_reader_failures_witness :
  let c := sampleConfig true false [] in
  let env := {| viper_ReadInConfig := None; viper_Unmarshal := inr c;
                time_Now := (2024, 3, 9)%Z; os_OpenFile := fun _ _ => None;
                sql_Open := fun _ _ => None;
                sql_Query := fun _ _ =>
                  QueryRows [ScanValue "alpha"; ScanError "converting NULL";
                             ScanValue "beta"] None;
                sql_Exec := fun _ _ _ _ => ExecDone 1;
                ldap_DialURL := fun _ => None; ldap_Bind := fun _ _ => None;
                ldap_Search := fun _ _ _ => inr [];
                cmd_StdinPipe := None; cmd_StderrPipe := None;
                cmd_StdoutPipe := None;
                powershell := fun _ => {| start_err := None; out := "";
                                          errtxt := ""; wait_err := None |} |} in
  @listDBComputers asciiOnly env (loaded c [] [])
  = (Aborted (Panic "error reading record from database: converting NULL"),
     {| config := c; dbComputers := ["ALPHA"]; adComputers := [];
        logFile := [ERROR "error reading record from database: converting NULL"];
        errorLogger := true; infoLogger := true;
        removeCalls := []; deletes := [] |}).
Proof.
  intros c env.
  destruct (inventory_reader_failures asciiOnly env (loaded c [] []))
    as (_ & Hopened).
  destruct (Hopened eq_refl) as (_ & Hrow & _).
  exact (Hrow ["alpha"] "converting NULL" [ScanValue "beta"] None eq_refl).
Defined.

(** X11: the failures of the primary directory reader.  A failed dial, bind
    or search panics with its message and leaves the directory list as it
    was; an entry without a first value stops the reader with the run-time
    error after the names of the entries before it have been appended, and
    nothing is written to the log for it. *)
Theorem directory_reader_failures (U : Unicode) (env : Env) (st : State) :
  (forall err,
     dialOf env st = Some err ->
     listADComputers env st
     = panicked ("unable to connect to AD server: " ++ err) st)
  /\ (dialOf env st = None ->
      (forall err,
         bindOf env st = Some err ->
         listADComputers env st = panicked ("unable to bind to ldap: " ++ err) st)
      /\ (bindOf env st = None ->
          (forall err,
             searchOf env st = inl err ->
             listADComputers env st = panicked ("ldap search error: " ++ err) st)
          /\ (forall good bad rest names,
                searchOf env st = inr (good ++ bad :: rest)%list ->
                map firstValue good = map Some names ->
                lacksValue bad ->
                listADComputers env st
                = (Aborted indexOutOfRange,
                   set_adComputers (adComputers st ++ map ToUpper names) st)))).
Proof.
  split; [|intros Hdial; split; [|intros Hbind; split]].
  - intros err Hdial. rewrite listADComputers_eq, Hdial. apply writeError_panicked.
  - intros err Hbind. rewrite listADComputers_eq, Hdial, Hbind.
    apply writeError_panicked.
  - intros err Hsearch. rewrite listADComputers_eq, Hdial, Hbind, Hsearch.
    apply writeError_panicked.
  - intros good bad rest names Hsearch Hgood Hbad.
    rewrite listADComputers_eq, Hdial, Hbind, Hsearch.
    rewrite (firstValues_fault_at good bad rest names Hgood Hbad).
    now destruct good.
Qed.

Lemma directory_reader_failures_witness :
  let c := sampleConfig true false [] in
  let env := sampleEnv c [] [computer "pc1"; bareEntry "CN=ORPHAN"; computer "pc3"]
               "" deleteFinds in
  @listADComputers asciiOnly env (loaded c [] [])
  = (Aborted indexOutOfRange, set_adComputers ["PC1"] (loaded c [] [])).
Proof.
  intros c env.
  destruct (directory_reader_failures asciiOnly env (loaded c [] []))
    as (_ & Hdialed).
  destruct (Hdialed eq_refl) as (_ & Hbound).
  destruct (Hbound eq_refl) as (_ & Hfault).
  apply (Hfault [computer "pc1"] (bareEntry "CN=ORPHAN") [computer "pc3"] ["pc1"]);
    [reflexivity | reflexivity | now left].
Defined.

(** X12: the failures of the cloud reader.  When a pipe of the command
    cannot be created the process exits with status 1 and the state,
    the log included, is as before; when PowerShell cannot be started, or
    exits with an error, the reader panics, the second message ending with
    what PowerShell wrote to its standard error; in both cases the output is
    not parsed and the directory list is as before. *)
Theorem cloud_reader_failures (U : Unicode) (env : Env) (st : State) :
  (~ pipesOpen env -> listAzureComputers env st = (Aborted (Exit 1), st))
  /\ (pipesOpen env ->
      (forall err,
         start_err (sessionOf env st) = Some err ->
         listAzureComputers env st
         = panicked ("failed to connect to powershell: " ++ err) st)
      /\ (start_err (sessionOf env st) = None ->
          forall err,
            wait_err (sessionOf env st) = Some err ->
            listAzureComputers env st
            = panicked ("failed to retrieve records from Azure: " ++ err
                        ++ LF ++ errtxt (sessionOf env st)) st)).
Proof.
  unfold pipesOpen. split.
  - intros Hpipes. rewrite listAzureComputers_eq.
    destruct (cmd_StdinPipe env); [reflexivity|].
    destruct (cmd_StderrPipe env); [reflexivity|].
    destruct (cmd_StdoutPipe env); [reflexivity|].
    destruct Hpipes. tauto.
  - intros (Hin & Herr & Hout). split.
    + intros err Hstart. rewrite listAzureComputers_eq, Hin, Herr, Hout, Hstart.
      apply writeError_panicked.
    + intros Hstart err Hwait.
      rewrite listAzureComputers_eq, Hin, Herr, Hout, Hstart, Hwait.
      apply writeError_panicked.
Qed.

Lemma cloud_reader_failures_witness :
  let c := sampleConfig true true [] in
  let env := {| viper_ReadInConfig := None; viper_Unmarshal := inr c;
                time_Now := (2024, 3, 9)%Z; os_OpenFile := fun _ _ => None;
                sql_Open := fun _ _ => None;
                sql_Query := fun _ _ => QueryRows [] None;
                sql_Exec := fun _ _ _ _ => ExecDone 1;
                ldap_DialURL := fun _ => None; ldap_Bind := fun _ _ => None;
                ldap_Search := fun _ _ _ => inr [];
                cmd_StdinPipe := None; cmd_StderrPipe := None;
                cmd_StdoutPipe := None;
                powershell := fun _ =>
                  {| start_err := None; out := reportCRLF;
                     errtxt := "Connect-AzureAD : not recognized";
                     wait_err := Some "exit status 1" |} |} in
  @listAzureComputers asciiOnly env (loaded c [] ["ALPHA"])
  = (Aborted (Panic ("failed to retrieve records from Azure: exit status 1"
                     ++ LF ++ "Connect-AzureAD : not recognized")),
     set_logFile [ERROR ("failed to retrieve records from Azure: exit status 1"
                         ++ LF ++ "Connect-AzureAD : not recognized")]
       (loaded c [] ["ALPHA"])).
Proof.
  intros c env.
  destruct (cloud_reader_failures asciiOnly env (loaded c [] ["ALPHA"]))
    as (_ & Hpiped).
  destruct Hpiped as (_ & Hstarted); [repeat split|].
  exact (Hstarted eq_refl "exit status 1" eq_refl).
Defined.

(** ** The report and its segments *)

Lemma Split_not_nil s sep : Split s sep <> [].
Proof.
  destruct s as [|c s]; simpl; [discriminate|].
  destruct (Ascii.eqb c sep); [discriminate|].
  destruct (Split s sep); discriminate.
Qed.

Lemma join_cons_byte sep c h t :
  join sep (String c h :: t) = String c (join sep (h :: t)).
Proof. destruct t; reflexivity. Qed.

Lemma join_Split s sep : join sep (Split s sep) = s.
Proof.
  induction s as [|c s IH]; [reflexivity|]. simpl.
  destruct (Ascii.eqb_spec c sep) as [->|Hne].
  - pose proof (Split_not_nil s sep) as Hnil.
    destruct (Split s sep) as [|h t]; [congruence|].
    change (join sep (EmptyString :: h :: t))
      with (EmptyString ++ String sep (join sep (h :: t))).
    now rewrite IH.
  - pose proof (Split_not_nil s sep) as Hnil.
    destruct (Split s sep) as [|h t]; [congruence|].
    now rewrite join_cons_byte, IH.
Qed.

Lemma Split_noByte_all s sep : Forall (fun c => noByte sep c = true) (Split s sep).
Proof.
  induction s as [|c s IH]; simpl; [repeat constructor|].
  destruct (Ascii.eqb c sep) eqn:Hc.
  - constructor; [reflexivity | exact IH].
  - destruct (Split s sep) as [|h t]; [repeat constructor; simpl; now rewrite Hc|].
    inversion IH as [|? ? Hh Ht]; subst.
    constructor; [simpl; now rewrite Hc, Hh | exact Ht].
Qed.

(** X13: cutting the output of PowerShell at the carriage returns loses
    nothing and cuts nowhere else: the segments joined by carriage returns
    are the output, no segment holds a carriage return, there is at least
    one segment, and segments without a carriage return that are joined and
    cut again come back as they were. *)
Theorem output_is_cut_at_every_carriage_return :
  (forall (text : string),
     join CR (Split text CR) = text
     /\ Forall (fun c => noByte CR c = true) (Split text CR)
     /\ Split text CR <> [])
  /\ (forall segments,
        segments <> [] -> Forall (fun c => noByte CR c = true) segments ->
        Split (join CR segments) CR = segments).
Proof.
  split.
  - intros text. split; [apply join_Split|].
    split; [apply Split_noByte_all | apply Split_not_nil].
  - intros segments. apply Split_join.
Qed.

Lemma output_is_cut_at_every_carriage_return_witness :
  Split reportCRLF CR
  = ["Header"; LF ++ "-----------"; LF ++ "DEVICE1"; LF ++ "DEVICE2"; LF;
     LF ++ "Trailing junk"].
Proof.
  change reportCRLF
    with (join CR ["Header"; LF ++ "-----------"; LF ++ "DEVICE1";
                   LF ++ "DEVICE2"; LF; LF ++ "Trailing junk"]).
  apply (proj2 output_is_cut_at_every_carriage_return);
    [discriminate | repeat constructor].
Defined.

Section ReportEdges.
Context {U : Unicode}.

Lemma reportLines_no_dashes psData :
  Forall (fun c => HasPrefix (TrimSpace c) "-----------" = false) psData ->
  reportLines psData true = [].
Proof.
  intros H. rewrite <- (app_nil_r psData). now rewrite reportLines_header.
Qed.

Lemma reportLines_In psData : forall skip c,
  In c (reportLines psData skip) -> In c psData /\ TrimSpace c <> "".
Proof.
  induction psData as [|d psData IH]; intros skip c; simpl; [tauto|].
  destruct skip; simpl.
  - destruct (HasPrefix (TrimSpace d) "-----------");
      intros H; apply IH in H; tauto.
  - destruct (String.eqb_spec (TrimSpace d) "") as [Hd|Hd]; [intros []|].
    intros [<-|H]; [tauto|]. apply IH in H. tauto.
Qed.
End ReportEdges.

(** X14: when PowerShell has run without an error, the cloud reader
    returns and only appends to the directory list; the number in its log
    line is the number of names it appended; and when no segment of the
    output starts, once trimmed, with eleven dashes, it appends nothing. *)
Theorem cloud_reader_counts_what_it_appends (U : Unicode) (env : Env) (st : State) :
  pipesOpen env ->
  start_err (sessionOf env st) = None ->
  wait_err (sessionOf env st) = None ->
  exists names,
    listAzureComputers env st
    = (Returned tt,
       logged (INFO (Itoa (Nat.iter (length names) incr 0%Z)
                     ++ " records retrieved from Azure"))
         (infoLogger st)
         (set_adComputers (adComputers st ++ names) st))
    /\ ((len names < 2 ^ 63)%Z -> Nat.iter (length names) incr 0%Z = len names)
    /\ (Forall (fun c => HasPrefix (TrimSpace c) "-----------" = false)
          (Split (out (sessionOf env st)) CR) ->
        names = []).
Proof.
  intros Hpipes Hstart Hwait.
  exists (map deviceName (reportLines (Split (out (sessionOf env st)) CR) true)).
  split; [|split].
  - rewrite (listAzureComputers_exited env st Hpipes Hstart Hwait).
    now rewrite length_map.
  - intros Hlen. apply iter_incr. exact Hlen.
  - intros Hnone. now rewrite reportLines_no_dashes.
Qed.

Lemma cloud_reader_counts_what_it_appends_witness :
  let c := sampleConfig true true [] in
  let env := sampleEnv c [] [] ("DEVICE1" ++ CRLF ++ "DEVICE2" ++ CRLF) deleteFinds in
  @listAzureComputers asciiOnly env (loaded c [] ["ALPHA"])
  = (Returned tt,
     logged (INFO "0 records retrieved from Azure") true (loaded c [] ["ALPHA"])).
Proof.
  intros c env.
  destruct (cloud_reader_counts_what_it_appends asciiOnly env (loaded c [] ["ALPHA"]))
    as (names & Hrun & _ & Hnone); [repeat split | reflexivity | reflexivity |].
  rewrite Hrun, Hnone by (repeat constructor). reflexivity.
Defined.

(** ** Trimming *)

Lemma endsWithSpace_cons c s :
  s <> EmptyString -> endsWithSpace (String c s) = endsWithSpace s.
Proof. destruct s; [congruence | reflexivity]. Qed.

Lemma scanRight_ascii s :
  isASCII s = true ->
  (scanRight s = (AllSpace, EmptyString) /\ allSpace s = true)
  \/ (exists t w,
        scanRight s = (CleanEnd, t) /\ s = t ++ w /\ allSpace w = true
        /\ t <> EmptyString /\ endsWithSpace t = false).
Proof.
  induction s as [|c s IH]; intros Hs; [left; split; reflexivity|].
  simpl in Hs. apply andb_true_iff in Hs as [Hc Hs].
  assert (Hc' : (RuneSelf <=? byteval c)%N = false)
    by (apply N.leb_gt; now apply N.ltb_lt).
  simpl.
  destruct (IH Hs) as [[-> Hall]|(t & w & -> & -> & Hw & Ht & Hend)].
  - rewrite Hc'. destruct (asciiSpace c) eqn:Hsp.
    + left. now rewrite Hall.
    + right. exists (String c EmptyString), s. simpl.
      repeat split; [exact Hall | discriminate | exact Hsp].
  - right. exists (String c t), w. simpl.
    repeat split; [exact Hw | discriminate|].
    destruct t; [congruence | exact Hend].
Qed.

Section Trim.
Context {U : Unicode}.

Lemma TrimSpace_cons c s :
  TrimSpace (String c s)
  = if (RuneSelf <=? byteval c)%N then TrimFuncIsSpace (String c s)
    else if asciiSpace c then TrimSpace s
    else match scanRight (String c s) with
         | (NonASCIIEnd, t) => TrimRightFuncIsSpace t
         | (_, t) => t
         end.
Proof. reflexivity. Qed.

(** On a string of ASCII bytes [TrimSpace] takes ASCII spaces off both ends
    until a byte that is no space is met. *)
Lemma TrimSpace_ascii s :
  isASCII s = true ->
  exists lead trail,
    s = lead ++ TrimSpace s ++ trail
    /\ allSpace lead = true /\ allSpace trail = true
    /\ startsWithSpace (TrimSpace s) = false
    /\ endsWithSpace (TrimSpace s) = false.
Proof.
  induction s as [|c s IH]; intros Hs.
  - exists EmptyString, EmptyString. repeat split.
  - pose proof Hs as Hcs. simpl in Hcs. apply andb_true_iff in Hcs as [Hc Hs'].
    assert (Hc' : (RuneSelf <=? byteval c)%N = false)
      by (apply N.leb_gt; now apply N.ltb_lt).
    rewrite TrimSpace_cons, Hc'.
    destruct (asciiSpace c) eqn:Hsp.
    + destruct (IH Hs') as (lead & trail & Heq & Hl & Ht & Hstart & Hend).
      exists (String c lead), trail. simpl. rewrite Hsp, Hl.
      repeat split; try assumption. now rewrite <- Heq.
    + destruct (scanRight_ascii (String c s) Hs)
        as [[_ Hall]|(t & w & -> & Heq & Hw & Ht & Hend)].
      { simpl in Hall. rewrite Hsp in Hall. discriminate. }
      exists EmptyString, w. simpl.
      repeat split; try assumption.
      destruct t as [|d t]; [congruence|].
      simpl in Heq. injection Heq as <- _. exact Hsp.
Qed.
End Trim.

Lemma asciiSpace_upperByte c : asciiSpace (upperByte c) = asciiSpace c.
Proof. bytes c; reflexivity. Qed.

Lemma endsWithSpace_mapBytes_upper s :
  endsWithSpace (mapBytes upperByte s) = endsWithSpace s.
Proof.
  induction s as [|c s IH]; [reflexivity|].
  destruct s as [|d s]; [simpl; apply asciiSpace_upperByte|].
  exact IH.
Qed.

Lemma Split_isASCII s sep :
  isASCII s = true -> Forall (fun c => isASCII c = true) (Split s sep).
Proof.
  induction s as [|c s IH]; intros Hs; simpl; [repeat constructor|].
  simpl in Hs. apply andb_true_iff in Hs as [Hc Hs].
  specialize (IH Hs).
  destruct (Ascii.eqb c sep); [constructor; [reflexivity | exact IH]|].
  destruct (Split s sep) as [|h t];
    [repeat constructor; simpl; now rewrite Hc|].
  inversion IH as [|? ? Hh Ht]; subst.
  constructor; [simpl; now rewrite Hc, Hh | exact Ht].
Qed.

(** The name stored for an ASCII segment that is not blank. *)
Lemma deviceName_clean (U : Unicode) c :
  isASCII c = true -> TrimSpace c <> EmptyString -> cleanName (deviceName c).
Proof.
  intros Hc Hne. unfold deviceName, cleanName.
  destruct (TrimSpace_ascii c Hc) as (lead & trail & Heq & _ & _ & Hstart & Hend).
  assert (Ht : isASCII (TrimSpace c) = true).
  { rewrite Heq, !isASCII_app in Hc.
    apply andb_true_iff in Hc as [_ Hc]. now apply andb_true_iff in Hc as [Hc _]. }
  rewrite (ToUpper_ascii _ Ht).
  split; [|split; [|split; [|split]]].
  - destruct (TrimSpace c); [congruence | discriminate].
  - now rewrite isASCII_mapBytes_upper.
  - apply hasLower_mapBytes_upper.
  - destruct (TrimSpace c) as [|d t]; [reflexivity|].
    simpl in *. now rewrite asciiSpace_upperByte.
  - now rewrite endsWithSpace_mapBytes_upper.
Qed.

(** X15: when the output of PowerShell holds ASCII bytes only, every name
    that the cloud reader appends to the directory list is not empty, has no
    ASCII space at its start or end, and holds no lower-case letter. *)
Theorem cloud_reader_stores_clean_names (U : Unicode) (env : Env) (st : State) :
  pipesOpen env ->
  start_err (sessionOf env st) = None ->
  wait_err (sessionOf env st) = None ->
  isASCII (out (sessionOf env st)) = true ->
  exists names,
    adComputers (snd (listAzureComputers env st)) = (adComputers st ++ names)%list
    /\ Forall cleanName names.
Proof.
  intros Hpipes Hstart Hwait Hascii.
  rewrite (listAzureComputers_exited env st Hpipes Hstart Hwait).
  eexists. split; [reflexivity|].
  apply Forall_forall. intros n Hn.
  apply in_map_iff in Hn as (c & <- & Hc).
  apply reportLines_In in Hc as [Hc Hne].
  apply deviceName_clean; [|exact Hne].
  pose proof (Split_isASCII (out (sessionOf env st)) CR Hascii) as Hall.
  rewrite Forall_forall in Hall. now apply Hall.
Qed.

Lemma cloud_reader_stores_clean_names_witness :
  let c := sampleConfig true true [] in
  let env := sampleEnv c [] [] reportPadded deleteFinds in
  exists names,
    adComputers (snd (@listAzureComputers asciiOnly env (loaded c [] ["ALPHA"])))
    = ("ALPHA" :: names)
    /\ Forall cleanName names.
Proof.
  intros c env.
  apply (cloud_reader_stores_clean_names asciiOnly env (loaded c [] ["ALPHA"]));
    [repeat split | reflexivity | reflexivity | reflexivity].
Defined.

(** ** Exemption entries with lower-case letters *)

Lemma exempted_upperEntries exempt x :
  hasLower x = false -> exempted exempt x = exempted (upperEntries exempt) x.
Proof.
  intros Hx. unfold exempted, upperEntries.
  induction exempt as [|e exempt IH]; [reflexivity|]. simpl.
  destruct (hasLower e) eqn:He; simpl.
  - destruct (String.eqb_spec x e) as [->|_]; [congruence | exact IH].
  - now rewrite IH.
Qed.

Lemma candidates_upperEntries ad exempt db :
  Forall (fun x => hasLower x = false) db ->
  filter (candidate ad exempt) db = filter (candidate ad (upperEntries exempt)) db.
Proof.
  intros Hdb. apply filter_ext_in. intros x Hx.
  rewrite Forall_forall in Hdb. unfold candidate.
  now rewrite (exempted_upperEntries exempt x (Hdb x Hx)).
Qed.

Lemma ToUpper_ascii_no_lower (U : Unicode) s :
  isASCII s = true -> hasLower (ToUpper s) = false.
Proof.
  intros Hs. rewrite (ToUpper_ascii s Hs). apply hasLower_mapBytes_upper.
Qed.

Lemma findComputersToRemoveFromDB_fst env st :
  fst (findComputersToRemoveFromDB env st)
  = fst (rangeDbComputers env (dbComputers st) 0%Z st)
  /\ removeCalls (snd (findComputersToRemoveFromDB env st))
     = removeCalls (snd (rangeDbComputers env (dbComputers st) 0%Z st))
  /\ deletes (snd (findComputersToRemoveFromDB env st))
     = deletes (snd (rangeDbComputers env (dbComputers st) 0%Z st)).
Proof.
  rewrite findComputersToRemoveFromDB_eq.
  destruct (rangeDbComputers env (dbComputers st) 0%Z st) as [[count|e] st'];
    repeat split.
Qed.

(** X16: the inventory reader stores ASCII names without lower-case
    letters, and for an inventory without lower-case letters the exemption
    entries that hold a lower-case ASCII letter have no effect: with those
    entries taken out of the configuration, [findComputersToRemoveFromDB]
    gives the same result, hands the same names to [removeComputer] and runs
    the same deletes. *)
Theorem exemptions_with_lower_case_letters_have_no_effect
    (U : Unicode) (env : Env) (st : State) :
  (forall names,
     Forall (fun n => isASCII n = true) names ->
     Forall (fun x => hasLower x = false) (map ToUpper names))
  /\ (Forall (fun x => hasLower x = false) (dbComputers st) ->
      let c := config st in
      let st' :=
        set_config (withExempt (upperEntries (ExemptComputers (Database c))) c) st in
      fst (findComputersToRemoveFromDB env st)
      = fst (findComputersToRemoveFromDB env st')
      /\ removeCalls (snd (findComputersToRemoveFromDB env st))
         = removeCalls (snd (findComputersToRemoveFromDB env st'))
      /\ deletes (snd (findComputersToRemoveFromDB env st))
         = deletes (snd (findComputersToRemoveFromDB env st'))).
Proof.
  split.
  - intros names Hnames. apply Forall_forall. intros x Hx.
    apply in_map_iff in Hx as (n & <- & Hn).
    rewrite Forall_forall in Hnames. now apply ToUpper_ascii_no_lower, Hnames.
  - intros Hdb c st'.
    assert (Hcands : candidates st (dbComputers st) = candidates st' (dbComputers st'))
      by (unfold candidates; subst st' c; simpl; now apply candidates_upperEntries).
    assert (Hdsn : connString (config st') = connString (config st)) by reflexivity.
    destruct (findComputersToRemoveFromDB_fst env st) as (-> & -> & ->).
    destruct (findComputersToRemoveFromDB_fst env st') as (-> & -> & ->).
    destruct (sql_Open env "mssql" (connString (config st))) as [err|] eqn:Hopen.
    + assert (Hopen' : sql_Open env "mssql" (connString (config st')) = Some err)
        by (rewrite Hdsn; exact Hopen).
      rewrite (rangeDbComputers_refused_outcome env err _ 0%Z st Hopen).
      rewrite (rangeDbComputers_refused_outcome env err _ 0%Z st' Hopen').
      destruct (rangeDbComputers_refused env err (dbComputers st) 0%Z st Hopen)
        as (r & s1 & -> & _ & Hrm & Hdel).
      destruct (rangeDbComputers_refused env err (dbComputers st') 0%Z st' Hopen')
        as (r' & s1' & -> & _ & Hrm' & Hdel').
      simpl. rewrite Hrm, Hrm', Hdel, Hdel', Hcands. repeat split.
    + assert (Hopen' : sql_Open env "mssql" (connString (config st')) = None)
        by (rewrite Hdsn; exact Hopen).
      destruct (rangeDbComputers_opened env (dbComputers st) 0%Z st Hopen)
        as (s1 & -> & _ & Hrm & Hdel).
      destruct (rangeDbComputers_opened env (dbComputers st') 0%Z st' Hopen')
        as (s1' & -> & _ & Hrm' & Hdel').
      simpl. rewrite Hrm, Hrm', Hdel, Hdel', Hcands. repeat split.
Qed.

Lemma exemptions_with_lower_case_letters_have_no_effect_witness :
  let env := sampleEnv (sampleConfig true false []) [] [] "" deleteFinds in
  removeCalls (snd (findComputersToRemoveFromDB env
                      (loaded (sampleConfig true false ["pc-lab-07"; "KIOSK"])
                         ["PC-LAB-07"; "KIOSK"; "DC1"] ["DC1"])))
  = removeCalls (snd (findComputersToRemoveFromDB env
                        (loaded (sampleConfig true false ["KIOSK"])
                           ["PC-LAB-07"; "KIOSK"; "DC1"] ["DC1"]))).
Proof.
  intros env.
  apply (exemptions_with_lower_case_letters_have_no_effect asciiOnly env
           (loaded (sampleConfig true false ["pc-lab-07"; "KIOSK"])
              ["PC-LAB-07"; "KIOSK"; "DC1"] ["DC1"])).
  repeat constructor.
Defined.

(** ** More directory entries, fewer removals *)

Lemma candidate_antitone ad ad' exempt exempt' x :
  incl ad ad' -> incl exempt exempt' ->
  candidate ad' exempt' x = true -> candidate ad exempt x = true.
Proof.
  intros Had Hex. rewrite !candidate_spec. intros [H1 H2].
  split; intros H; [apply H1, Had, H | apply H2, Hex, H].
Qed.

(** X17: names added to the directory list or to the exemption list never
    add a removal.  For two states with the same inventory, when the
    connection string of the first is accepted, every name that
    [findComputersToRemoveFromDB] hands to [removeComputer] from the state
    with the larger lists is also handed over from the first state. *)
Theorem larger_lists_remove_no_more (env : Env) (st st' : State) :
  sql_Open env "mssql" (connString (config st)) = None ->
  dbComputers st' = dbComputers st ->
  incl (adComputers st) (adComputers st') ->
  incl (ExemptComputers (Database (config st)))
       (ExemptComputers (Database (config st'))) ->
  exists passed passed',
    removeCalls (snd (findComputersToRemoveFromDB env st))
    = (removeCalls st ++ passed)%list
    /\ removeCalls (snd (findComputersToRemoveFromDB env st'))
       = (removeCalls st' ++ passed')%list
    /\ incl passed' passed.
Proof.
  intros Hopen Hdb Had Hex.
  destruct (findComputersToRemoveFromDB_opened env st Hopen)
    as (s1 & -> & _ & Hrm & _).
  exists (candidates st (dbComputers st)).
  assert (Hsub : incl (candidates st' (dbComputers st')) (candidates st (dbComputers st))).
  { intros x Hx. unfold candidates in *. rewrite Hdb in Hx.
    apply filter_In in Hx as [Hin Hc]. apply filter_In. split; [exact Hin|].
    eapply candidate_antitone; eauto. }
  destruct (sql_Open env "mssql" (connString (config st'))) as [err|] eqn:Hopen'.
  - destruct (findComputersToRemoveFromDB_refused env st' err Hopen')
      as (r & s1' & -> & Hrm' & _).
    exists (firstn 1 (candidates st' (dbComputers st'))).
    split; [exact Hrm|]. split; [exact Hrm'|].
    intros x Hx. apply Hsub. now apply In_firstn_1.
  - destruct (findComputersToRemoveFromDB_opened env st' Hopen')
      as (s1' & -> & _ & Hrm' & _).
    exists (candidates st' (dbComputers st')).
    split; [exact Hrm|]. split; [exact Hrm' | exact Hsub].
Qed.

Lemma larger_lists_remove_no_more_witness :
  let c := sampleConfig true true [] in
  let env := sampleEnv c [] [] "" deleteFinds in
  exists passed passed',
    removeCalls (snd (findComputersToRemoveFromDB env
                        (loaded c ["ALPHA"; "BETA"; "GAMMA"] ["ALPHA"]))) = passed
    /\ removeCalls (snd (findComputersToRemoveFromDB env
                           (loaded c ["ALPHA"; "BETA"; "GAMMA"] ["ALPHA"; "GAMMA"])))
       = passed'
    /\ incl passed' passed.
Proof.
  intros c env.
  apply (larger_lists_remove_no_more env
           (loaded c ["ALPHA"; "BETA"; "GAMMA"] ["ALPHA"])
           (loaded c ["ALPHA"; "BETA"; "GAMMA"] ["ALPHA"; "GAMMA"]));
    [reflexivity | reflexivity | | apply incl_refl].
  intros x [<-|[]]. now left.
Defined.

Lemma log_is_only_appended_to_witness :
  let c := sampleConfig true false ["GAMMA"] in
  let env := sampleEnv c [] [] "" (deleteFailsOn "BETA") in
  let st := loadedSilent c ["ALPHA"; "BETA"; "GAMMA"; "DELTA"] ["ALPHA"] in
  logFile (snd (findComputersToRemoveFromDB env st)) = []
  /\ removeCalls (snd (findComputersToRemoveFromDB env st)) = ["BETA"; "DELTA"].
Proof.
  intros c env st. split; [|reflexivity].
  destruct (log_is_only_appended_to asciiOnly env st)
    as (_ & _ & _ & _ & (_ & Hsilent & _)).
  apply Hsilent. split; reflexivity.
Defined.

(** X18: on a string of ASCII bytes, [TrimSpace] as the cloud reader uses
    it takes off ASCII spaces (tab, line feed, vertical tab, form feed,
    carriage return, space) at both ends and nothing else: the string is
    spaces, then its trimming, then spaces, and the trimming neither starts
    nor ends with a space. *)
Theorem TrimSpace_takes_spaces_off_both_ends (U : Unicode) (s : string) :
  isASCII s = true ->
  exists lead trail,
    s = lead ++ TrimSpace s ++ trail
    /\ allSpace lead = true /\ allSpace trail = true
    /\ startsWithSpace (TrimSpace s) = false
    /\ endsWithSpace (TrimSpace s) = false.
Proof. apply TrimSpace_ascii. Qed.

Lemma TrimSpace_takes_spaces_off_both_ends_witness :
  exists lead trail,
    LF ++ "  Front Desk 2 " ++ String CR EmptyString
    = lead ++ @TrimSpace asciiOnly (LF ++ "  Front Desk 2 " ++ String CR EmptyString)
        ++ trail
    /\ allSpace lead = true /\ allSpace trail = true.
Proof.
  destruct (TrimSpace_takes_spaces_off_both_ends asciiOnly
              (LF ++ "  Front Desk 2 " ++ String CR EmptyString) eq_refl)
    as (lead & trail & Heq & Hl & Ht & _).
  exists lead, trail. split; [exact Heq | split; assumption].
Defined.

(** ** The log file *)

(** X19: with logging enabled, [main] opens the file named after the year,
    month and day in the configured directory, panics when that fails and
    sets both loggers otherwise; with logging disabled no file is opened.
    The numbers of the date are written without padding, so that different
    days of a year can give one file name: the 11th of January and the 1st of
    November do. *)
Theorem log_file_is_named_after_the_unpadded_date (env : Env) (st : State) :
  (log_Enabled (Logging (config st)) = true ->
   forall year month day,
     time_Now env = (year, month, day) ->
     openLog env st
     = match os_OpenFile env (log_Location (Logging (config st)))
               (logfilename year month day) with
       | Some err => (Aborted (Panic ("failed to open log file: " ++ err)), st)
       | None => (Returned tt, set_loggers st)
       end)
  /\ (log_Enabled (Logging (config st)) = false ->
      openLog env st = (Returned tt, st))
  /\ (forall year, logfilename year 1 11 = logfilename year 11 1).
Proof.
  split; [|split].
  - intros Hon year month day Hnow.
    unfold openLog, bind, get. rewrite Hon, Hnow.
    unfold logfilename. now destruct (os_OpenFile env _ _).
  - intros Hoff. unfold openLog, bind, get. now rewrite Hoff.
  - intros year. reflexivity.
Qed.

Lemma log_file_is_named_after_the_unpadded_date_witness :
  let c := sampleConfig true false [] in
  let env := sampleEnv c [] [] "" deleteFinds in
  openLog env (set_config c initial) = (Returned tt, set_loggers (set_config c initial))
  /\ logfilename 2024 3 9 = "polarissync202439.log".
Proof.
  intros c env. split; [|reflexivity].
  destruct (log_file_is_named_after_the_unpadded_date env (set_config c initial))
    as (Hon & _).
  exact (Hon eq_refl 2024%Z 3%Z 9%Z eq_refl).
Defined.
